(** * presentation-server: the slide Seeder and the read-only slide routes

    A shallow embedding of the two programs of the repository:

    - the seed script ([seedSlides]), which connects to the document store,
      lists the [slides] directory, parses every [*.json] file and inserts it
      as one Slide document;
    - the Express router of [api/slideRoutes.js], with its two read routes
      [GET /] and [GET /:id].

    Both programs are written in an exception-and-state monad over an explicit
    world: what JavaScript does with [await], [try]/[catch] and mutation of
    shared objects is spelled out as state passing. *)

From Stdlib Require Import String Ascii List Bool Arith NArith Lia.
From Stdlib.Strings Require Import Byte.
From Stdlib Require Import DecimalString.
Import ListNotations.
Open Scope string_scope.
Open Scope list_scope.

Set Implicit Arguments.
Set Warnings "-register-all".

(* ------------------------------------------------------------------ *)
(** * JavaScript values that cross the boundary                        *)
(* ------------------------------------------------------------------ *)

(** A parsed JSON value.  Numbers keep their literal text: the programs never
    compute with them, they only pass them through. *)
Inductive json : Type :=
| JNull
| JBool (b : bool)
| JNumber (literal : string)
| JString (s : string)
| JArray (items : list json)
| JObject (fields : list (string * json)).

(** A JavaScript [Error]: the programs read [err.message] and print [err]. *)
Record Error : Type := mkError { name : string; message : string }.

(** [String.prototype.endsWith]: [s] ends with [suffix] when it is [suffix]
    itself or when its tail ends with [suffix].  The comparison is on code
    units, hence case-sensitive. *)
Fixpoint endsWith (s suffix : string) : bool :=
  String.eqb s suffix ||
  match s with
  | EmptyString => false
  | String _ s' => endsWith s' suffix
  end.

(** The decimal rendering of [files.length] inside a template literal. *)
Definition decimal (n : nat) : string := NilEmpty.string_of_uint (Nat.to_uint n).

(** [path.resolve(base, name)] and [path.join(dir, name)] for an absolute
    [base] and a plain entry [name]: one separator between the two. *)
Definition path_join (dir entry : string) : string :=
  if String.eqb dir "/" then "/" ++ entry else dir ++ "/" ++ entry.

Definition path_resolve (base entry : string) : string := path_join base entry.

(* ------------------------------------------------------------------ *)
(** * Store identifiers                                                *)
(* ------------------------------------------------------------------ *)

Module Oid.

(** The store's identifier: twelve bytes, written as twenty-four
    hexadecimal digits. *)
Definition t : Type :=
  (byte * byte * byte * byte * byte * byte *
   byte * byte * byte * byte * byte * byte)%type.

Definition bytes (i : t) : list byte :=
  let '(b0, b1, b2, b3, b4, b5, b6, b7, b8, b9, b10, b11) := i in
  [b0; b1; b2; b3; b4; b5; b6; b7; b8; b9; b10; b11].

Definition of_bytes (l : list byte) : option t :=
  match l with
  | [b0; b1; b2; b3; b4; b5; b6; b7; b8; b9; b10; b11] =>
      Some (b0, b1, b2, b3, b4, b5, b6, b7, b8, b9, b10, b11)
  | _ => None
  end.

Definition hex_digit (n : N) : ascii :=
  match n with
  | 0 => "0" | 1 => "1" | 2 => "2" | 3 => "3" | 4 => "4" | 5 => "5"
  | 6 => "6" | 7 => "7" | 8 => "8" | 9 => "9" | 10 => "a" | 11 => "b"
  | 12 => "c" | 13 => "d" | 14 => "e" | _ => "f"
  end%N%char.

(** Reading a digit accepts both cases. *)
Definition hex_value (c : ascii) : option N :=
  let n := N_of_ascii c in
  (if (48 <=? n) && (n <=? 57) then Some (n - 48)
   else if (97 <=? n) && (n <=? 102) then Some (n - 87)
   else if (65 <=? n) && (n <=? 70) then Some (n - 55)
   else None)%N.

Definition byte_to_hex (b : byte) (rest : string) : string :=
  String (hex_digit (Byte.to_N b / 16)%N)
    (String (hex_digit (Byte.to_N b mod 16)%N) rest).

Definition byte_of_hex (hi lo : ascii) : option byte :=
  match hex_value hi, hex_value lo with
  | Some h, Some l => Byte.of_N (16 * h + l)%N
  | _, _ => None
  end.

Fixpoint hex_of_bytes (l : list byte) : string :=
  match l with
  | [] => EmptyString
  | b :: l' => byte_to_hex b (hex_of_bytes l')
  end.

Fixpoint bytes_of_hex (s : string) : option (list byte) :=
  match s with
  | EmptyString => Some []
  | String hi (String lo s') =>
      match byte_of_hex hi lo, bytes_of_hex s' with
      | Some b, Some l => Some (b :: l)
      | _, _ => None
      end
  | String _ EmptyString => None
  end.

(** [id.toHexString()], which is how an identifier appears in a JSON
    response and in a request path. *)
Definition toHexString (i : t) : string := hex_of_bytes (bytes i).

(** The cast the store applies to a path parameter: [None] is the cast
    error raised for a string that is not twenty-four hexadecimal digits. *)
Definition cast (s : string) : option t :=
  match bytes_of_hex s with
  | Some l => of_bytes l
  | None => None
  end.

Fixpoint bytes_eqb (l1 l2 : list byte) : bool :=
  match l1, l2 with
  | [], [] => true
  | b1 :: l1', b2 :: l2' => Byte.eqb b1 b2 && bytes_eqb l1' l2'
  | _, _ => false
  end.

Definition eqb (i j : t) : bool := bytes_eqb (bytes i) (bytes j).

(** The identifier whose twelve bytes are the big-endian digits of [n]. *)
Definition of_N (n : N) : t :=
  let b (k : N) : byte :=
    match Byte.of_N ((n / 256 ^ k) mod 256)%N with
    | Some x => x
    | None => x00
    end in
  (b 11, b 10, b 9, b 8, b 7, b 6, b 5, b 4, b 3, b 2, b 1, b 0)%N.

End Oid.

(* ------------------------------------------------------------------ *)
(** * Exceptions and state                                             *)
(* ------------------------------------------------------------------ *)

(** How a JavaScript computation ends: it returns a value or throws (an
    awaited promise that rejects throws at the [await]). *)
Inductive Outcome (A : Type) : Type :=
| Returned (a : A)
| Thrown (e : Error).

Arguments Returned {A} a.
Arguments Thrown {A} e.

(** A computation over a world [S]: the world it leaves behind is kept on
    both exits, so what was done before a throw stays done. *)
Definition M (S A : Type) : Type := S -> Outcome A * S.

Definition ret {S A : Type} (a : A) : M S A := fun s => (Returned a, s).

Definition throw {S A : Type} (e : Error) : M S A := fun s => (Thrown e, s).

Definition bind {S A B : Type} (m : M S A) (k : A -> M S B) : M S B :=
  fun s =>
    match m s with
    | (Returned a, s') => k a s'
    | (Thrown e, s') => (Thrown e, s')
    end.

(** [try { body } catch (err) { handler }]. *)
Definition try_catch {S A : Type} (body : M S A) (handler : Error -> M S A) : M S A :=
  fun s =>
    match body s with
    | (Returned a, s') => (Returned a, s')
    | (Thrown e, s') => handler e s'
    end.

Notation "x <- m ;; k" := (bind m (fun x => k))
  (at level 61, m at next level, right associativity).
Notation "m ;; k" := (bind m (fun _ => k))
  (at level 61, right associativity).

(** [for (const x of xs) { body }] with no [break]: the first throw leaves
    the loop. *)
Fixpoint for_of {S A : Type} (xs : list A) (body : A -> M S unit) : M S unit :=
  match xs with
  | [] => ret tt
  | x :: xs' => body x ;; for_of xs' body
  end.

(* ------------------------------------------------------------------ *)
(** * The document store and the host                                  *)
(* ------------------------------------------------------------------ *)

(** A persisted Slide: the identifier the store assigned and the fields it
    was created with. *)
Record Slide : Type := mkSlide { _id : Oid.t; fields : json }.

(** [mongoose.connection.readyState], reduced to the two stable states. *)
Inductive ReadyState : Type := Disconnected | Connected.

(** Every call the Seeder makes to the outside, in the order it makes it. *)
Inductive Event : Type :=
| EvConnect (uri : option string)
| EvReaddir (dir : string)
| EvReadFile (path : string)
| EvCreate (data : json)
| EvClose
| EvLog (line : string)
| EvWarn (line : string)
| EvError (line : string) (err : Error).

(** What the Seeder's surroundings answer; none of it changes during a run. *)
Record Host : Type := mkHost {
  (** [process.env.MONGO_URI] once [dotenv.config()] has run. *)
  MONGO_URI : option string;
  (** [process.cwd()]. *)
  cwd : string;
  (** The entries of a directory in listing order; [None] when it cannot be
      listed. *)
  readdir : string -> option (list string);
  (** The UTF-8 text of a file; [None] when it cannot be read. *)
  readFile : string -> option string;
  (** [JSON.parse]; [None] is its [SyntaxError]. *)
  JSON_parse : string -> option json;
  (** Whether a store answers at a connection string. *)
  reachable : string -> bool;
  (** The error, if any, with which closing the connection rejects, given the
      calls made before it. *)
  close_fault : list Event -> option Error;
  (** The documents the Slide schema accepts. *)
  Slide_schema : json -> bool;
  (** The identifiers that document construction generates, in order. *)
  new_ObjectId : nat -> Oid.t
}.

(** The world of a Seeder run: the connection of the process, the persisted
    Slide collection, how many identifiers were generated, and the calls made
    so far. *)
Record World : Type := mkWorld {
  connection : ReadyState;
  collection : list Slide;
  oids_used : nat;
  trace : list Event
}.

Definition emit (ev : Event) (w : World) : World :=
  mkWorld (connection w) (collection w) (oids_used w) (trace w ++ [ev]).

Definition set_connection (r : ReadyState) (w : World) : World :=
  mkWorld r (collection w) (oids_used w) (trace w).

Definition take_oid (w : World) : World :=
  mkWorld (connection w) (collection w) (S (oids_used w)) (trace w).

Definition persist (d : Slide) (w : World) : World :=
  mkWorld (connection w) (collection w ++ [d]) (oids_used w) (trace w).

Definition ids (l : list Slide) : list Oid.t := map _id l.

Definition has_id (i : Oid.t) (l : list Slide) : bool :=
  existsb (Oid.eqb i) (ids l).

Section Seeder.

Variable H : Host.

(** ** The library calls of the seed script *)

Definition mongoose_connect (uri : option string) : M World unit :=
  fun w =>
    let w1 := emit (EvConnect uri) w in
    match uri with
    | None =>
        (Thrown (mkError "MongooseError"
                   "The `uri` parameter to `openUri()` must be a string, got undefined"),
         w1)
    | Some u =>
        if reachable H u then (Returned tt, set_connection Connected w1)
        else (Thrown (mkError "MongooseServerSelectionError" "connect ECONNREFUSED"), w1)
    end.

Definition mongoose_connection_close : M World unit :=
  fun w =>
    let w1 := emit EvClose w in
    match close_fault H (trace w) with
    | Some e => (Thrown e, w1)
    | None => (Returned tt, set_connection Disconnected w1)
    end.

Definition console_log (line : string) : M World unit :=
  fun w => (Returned tt, emit (EvLog line) w).

Definition console_warn (line : string) : M World unit :=
  fun w => (Returned tt, emit (EvWarn line) w).

Definition console_error (line : string) (err : Error) : M World unit :=
  fun w => (Returned tt, emit (EvError line err) w).

Definition fs_readdirSync (dir : string) : M World (list string) :=
  fun w =>
    let w1 := emit (EvReaddir dir) w in
    match readdir H dir with
    | Some entries => (Returned entries, w1)
    | None => (Thrown (mkError "Error" ("ENOENT: no such file or directory, scandir " ++ dir)), w1)
    end.

Definition fs_readFileSync (path : string) : M World string :=
  fun w =>
    let w1 := emit (EvReadFile path) w in
    match readFile H path with
    | Some text => (Returned text, w1)
    | None => (Thrown (mkError "Error" ("ENOENT: no such file or directory, open " ++ path)), w1)
    end.

Definition JSON_parse_text (text : string) : M World json :=
  match JSON_parse H text with
  | Some v => ret v
  | None => throw (mkError "SyntaxError" "Unexpected token in JSON")
  end.

(** Modelled from the spec: [models/slideModel.js], which declares the Slide
    schema, is not among the sources.  The spec has [Slide.create] insert the
    parsed value as one new Slide document, pass-through, under a
    store-assigned unique identifier, and fail with an insertion error when
    the schema or the store rejects the document.  Here the schema is the
    host's [Slide_schema], and the store rejects a write on a closed
    connection and an identifier it already holds. *)
Definition Slide_create (data : json) : M World Slide :=
  fun w =>
    let w1 := emit (EvCreate data) w in
    let doc := mkSlide (new_ObjectId H (oids_used w1)) data in
    let w2 := take_oid w1 in
    if negb (Slide_schema H data) then
      (Thrown (mkError "ValidationError" "Slide validation failed"), w2)
    else
      match connection w2 with
      | Disconnected =>
          (Thrown (mkError "MongooseError" "Operation `slides.insertOne()` buffering timed out"), w2)
      | Connected =>
          if has_id (_id doc) (collection w2) then
            (Thrown (mkError "MongoServerError" "E11000 duplicate key error collection: slides index: _id_"), w2)
          else (Returned doc, persist doc w2)
      end.

(** ** The seed script *)

Definition slidesDir : string := path_resolve (cwd H) "slides".

(** The body of the loop, for one file. *)
Definition seed_file (file : string) : M World unit :=
  let filePath := path_join slidesDir file in
  text <- fs_readFileSync filePath ;;
  data <- JSON_parse_text text ;;
  _ <- Slide_create data ;;
  console_log ("📥 Inserted " ++ file).

(** The [try] block of [seedSlides].  The early [return] of the empty case
    is the first branch of the conditional: nothing follows the
    [try]/[catch] in the function. *)
Definition seedSlides_try : M World unit :=
  mongoose_connect (MONGO_URI H) ;;
  console_log "✅ MongoDB Connected" ;;
  entries <- fs_readdirSync slidesDir ;;
  let files := filter (fun f => endsWith f ".json") entries in
  console_log ("📄 Found " ++ decimal (length files) ++ " slide JSON files") ;;
  if Nat.eqb (length files) 0 then
    console_warn "⚠️ No JSON files found in slides directory"
  else
    for_of files seed_file ;;
    console_log "🎉 All slides inserted successfully!" ;;
    mongoose_connection_close.

(** The [catch] block of [seedSlides]. *)
Definition seedSlides_catch (err : Error) : M World unit :=
  console_error "❌ Error while seeding slides:" err ;;
  mongoose_connection_close.

Definition seedSlides : M World unit :=
  try_catch seedSlides_try seedSlides_catch.

End Seeder.

(* ------------------------------------------------------------------ *)
(** * The Query Service: [api/slideRoutes.js]                          *)
(* ------------------------------------------------------------------ *)

(** What a handler hands to [res.json]. *)
Inductive Body : Type :=
| BodySlides (slides : list Slide)
| BodySlide (slide : Slide)
| BodyObject (members : list (string * string)).

(** The [res] object of one request: Express creates it with status 200 and
    nothing sent. *)
Record Response : Type := mkResponse { statusCode : nat; sent : option Body }.

Definition fresh_res : Response := mkResponse 200 None.

(** The world of one request: the connection the server process opened at
    startup, the persisted Slide collection, and the request's [res]. *)
Record Api : Type := mkApi {
  api_connection : ReadyState;
  api_collection : list Slide;
  res : Response
}.

(** A request arriving at the server: the same store, a new [res]. *)
Definition request (r : ReadyState) (slides : list Slide) : Api :=
  mkApi r slides fresh_res.

Definition dquote : string := String (ascii_of_nat 34) EmptyString.

Definition res_status (code : nat) : M Api unit :=
  fun a =>
    (Returned tt,
     mkApi (api_connection a) (api_collection a) (mkResponse code (sent (res a)))).

Definition res_json (b : Body) : M Api unit :=
  fun a =>
    (Returned tt,
     mkApi (api_connection a) (api_collection a) (mkResponse (statusCode (res a)) (Some b))).

(** [Slide.find()]: every document of the collection, in the store's order. *)
Definition Slide_find : M Api (list Slide) :=
  fun a =>
    match api_connection a with
    | Connected => (Returned (api_collection a), a)
    | Disconnected =>
        (Thrown (mkError "MongooseError" "Operation `slides.find()` buffering timed out"), a)
    end.

(** [Slide.findById(id)]: the path parameter is cast to an identifier, which
    fails for a malformed one; the result is the document with that
    identifier, or [null]. *)
Definition Slide_findById (id : string) : M Api (option Slide) :=
  fun a =>
    match Oid.cast id with
    | None =>
        (Thrown (mkError "CastError"
                   ("Cast to ObjectId failed for value " ++ dquote ++ id ++ dquote ++
                    " (type string) at path " ++ dquote ++ "_id" ++ dquote ++
                    " for model " ++ dquote ++ "Slide" ++ dquote)),
         a)
    | Some i =>
        match api_connection a with
        | Connected => (Returned (find (fun s => Oid.eqb (_id s) i) (api_collection a)), a)
        | Disconnected =>
            (Thrown (mkError "MongooseError" "Operation `slides.findOne()` buffering timed out"), a)
        end
    end.

(** [router.get("/", ...)]. *)
Definition list_route : M Api unit :=
  try_catch
    (slides <- Slide_find ;;
     res_json (BodySlides slides))
    (fun err =>
       res_status 500 ;;
       res_json (BodyObject [("error", message err)])).

(** [router.get("/:id", ...)], applied to [req.params.id]. *)
Definition get_route (id : string) : M Api unit :=
  try_catch
    (slide <- Slide_findById id ;;
     match slide with
     | None =>
         res_status 404 ;;
         res_json (BodyObject [("message", "Slide not found")])
     | Some s => res_json (BodySlide s)
     end)
    (fun err =>
       res_status 500 ;;
       res_json (BodyObject [("error", message err)])).

(** The response a handler leaves, and the collection it leaves. *)
Definition response_of (h : M Api unit) (a : Api) : Response := res (snd (h a)).

Definition store_after (h : M Api unit) (a : Api) : list Slide :=
  api_collection (snd (h a)).

(* ------------------------------------------------------------------ *)
(** * A reader for a fragment of JSON                                  *)
(* ------------------------------------------------------------------ *)

(** The results below hold for every [JSON_parse].  To run the programs on
    concrete directories, this module reads the fragment of JSON made of
    [null], [true], [false], unsigned integers, strings without escapes,
    arrays and objects. *)
Module MiniJSON.

Definition is_space (c : ascii) : bool :=
  Ascii.eqb c " " || Ascii.eqb c (ascii_of_nat 10) || Ascii.eqb c (ascii_of_nat 9).

Definition is_digit (c : ascii) : bool :=
  (48 <=? nat_of_ascii c)%nat && (nat_of_ascii c <=? 57)%nat.

Definition is_quote (c : ascii) : bool := Ascii.eqb c (ascii_of_nat 34).

Fixpoint skip_spaces (s : string) : string :=
  match s with
  | String c s' => if is_space c then skip_spaces s' else s
  | EmptyString => s
  end.

(** [expect word s]: what follows [word] at the head of [s]. *)
Fixpoint expect (word s : string) : option string :=
  match word, s with
  | EmptyString, _ => Some s
  | String a word', String b s' => if Ascii.eqb a b then expect word' s' else None
  | String _ _, EmptyString => None
  end.

Fixpoint digits (s : string) : string * string :=
  match s with
  | String c s' =>
      if is_digit c then let '(d, r) := digits s' in (String c d, r)
      else (EmptyString, s)
  | EmptyString => (EmptyString, s)
  end.

(** The characters up to the closing quote; escapes are not read. *)
Fixpoint chars (s : string) : option (string * string) :=
  match s with
  | String c s' =>
      if is_quote c then Some (EmptyString, s')
      else if Ascii.eqb c "\" then None
      else match chars s' with
           | Some (t, r) => Some (String c t, r)
           | None => None
           end
  | EmptyString => None
  end.

Fixpoint value (fuel : nat) (s : string) : option (json * string) :=
  match fuel with
  | 0 => None
  | S fuel' =>
      match skip_spaces s with
      | EmptyString => None
      | String c r as s1 =>
          if is_quote c then
            match chars r with
            | Some (t, r') => Some (JString t, r')
            | None => None
            end
          else if is_digit c then
            let '(d, r') := digits s1 in Some (JNumber d, r')
          else if Ascii.eqb c "n" then option_map (pair JNull) (expect "ull" r)
          else if Ascii.eqb c "t" then option_map (pair (JBool true)) (expect "rue" r)
          else if Ascii.eqb c "f" then option_map (pair (JBool false)) (expect "alse" r)
          else if Ascii.eqb c "[" then
            match skip_spaces r with
            | String "]" r' => Some (JArray [], r')
            | _ => match items fuel' r with
                   | Some (vs, r') => Some (JArray vs, r')
                   | None => None
                   end
            end
          else if Ascii.eqb c "{" then
            match skip_spaces r with
            | String "}" r' => Some (JObject [], r')
            | _ => match members fuel' r with
                   | Some (ms, r') => Some (JObject ms, r')
                   | None => None
                   end
            end
          else None
      end
  end
with items (fuel : nat) (s : string) : option (list json * string) :=
  match fuel with
  | 0 => None
  | S fuel' =>
      match value fuel' s with
      | Some (v, r) =>
          match skip_spaces r with
          | String "," r' =>
              match items fuel' r' with
              | Some (vs, r'') => Some (v :: vs, r'')
              | None => None
              end
          | String "]" r' => Some ([v], r')
          | _ => None
          end
      | None => None
      end
  end
with members (fuel : nat) (s : string) : option (list (string * json) * string) :=
  match fuel with
  | 0 => None
  | S fuel' =>
      match skip_spaces s with
      | String q r =>
          if is_quote q then
            match chars r with
            | Some (k, r1) =>
                match skip_spaces r1 with
                | String ":" r2 =>
                    match value fuel' r2 with
                    | Some (v, r3) =>
                        match skip_spaces r3 with
                        | String "," r4 =>
                            match members fuel' r4 with
                            | Some (ms, r5) => Some ((k, v) :: ms, r5)
                            | None => None
                            end
                        | String "}" r4 => Some ([(k, v)], r4)
                        | _ => None
                        end
                    | None => None
                    end
                | _ => None
                end
            | None => None
            end
          else None
      | EmptyString => None
      end
  end.

(** One JSON value and nothing after it. *)
Definition parse (s : string) : option json :=
  match value (2 * String.length s + 2) s with
  | Some (v, r) =>
      match skip_spaces r with
      | EmptyString => Some v
      | String _ _ => None
      end
  | None => None
  end.

End MiniJSON.

(* ------------------------------------------------------------------ *)
(** * Notions used in the statements                                   *)
(* ------------------------------------------------------------------ *)

(** The entries the Seeder keeps: the filter of [seedSlides]. *)
Definition json_files (entries : list string) : list string :=
  filter (fun f => endsWith f ".json") entries.

(** The parsed content of a file of the slides directory, when it can be
    read and is valid JSON. *)
Definition parsed (H : Host) (file : string) : option json :=
  match readFile H (path_join (slidesDir H) file) with
  | Some text => JSON_parse H text
  | None => None
  end.

(** A Slide is the document of a file: equal to the file's parsed content
    apart from the identifier. *)
Definition document_of (H : Host) (file : string) (d : Slide) : Prop :=
  parsed H file = Some (fields d).

(** A run completes without error: its [try] block does not throw. *)
Definition completes (H : Host) (w : World) : Prop :=
  fst (seedSlides_try H w) = Returned tt.

(** The world a run leaves. *)
Definition after (H : Host) (w : World) : World := snd (seedSlides H w).

(** The world in which the loop starts: connected, directory listed, the two
    informational lines written. *)
Definition at_loop (H : Host) (u : string) (files : list string) (w : World) : World :=
  emit (EvLog ("📄 Found " ++ decimal (length files) ++ " slide JSON files"))
    (emit (EvReaddir (slidesDir H))
       (emit (EvLog "✅ MongoDB Connected")
          (set_connection Connected (emit (EvConnect (Some u)) w)))).

(** The files read, in order. *)
Definition read_paths (tr : list Event) : list string :=
  flat_map (fun ev => match ev with EvReadFile p => [p] | _ => [] end) tr.

(** What was written to the console, in order. *)
Definition console (tr : list Event) : list Event :=
  filter (fun ev => match ev with
                    | EvLog _ | EvWarn _ | EvError _ _ => true
                    | _ => false
                    end) tr.

(** The store keeps identifiers unique. *)
Definition unique_ids (l : list Slide) : Prop := NoDup (ids l).

(** What [GET /] answers at a server connected to a store holding [slides]. *)
Definition listed (slides : list Slide) : Response :=
  response_of list_route (request Connected slides).

(** The calls a run added to the trace, and the files it read. *)
Definition added (H : Host) (w : World) : list Event :=
  skipn (length (trace w)) (trace (after H w)).

Definition files_read (H : Host) (w : World) : list string :=
  skipn (length (read_paths (trace w))) (read_paths (trace (after H w))).

(** The error line of the [catch] block. *)
Definition seeding_error (e : Error) : Event :=
  EvError "❌ Error while seeding slides:" e.

(** The per-file line of the loop, and the calls of a turn that goes through:
    the read, the insertion of the parsed content, the line. *)
Definition inserted_line (file : string) : Event := EvLog ("📥 Inserted " ++ file).

Definition file_calls (H : Host) (file : string) : list Event :=
  match parsed H file with
  | Some data =>
      [EvReadFile (path_join (slidesDir H) file); EvCreate data; inserted_line file]
  | None => []
  end.

(** The calls of a run up to the loop, for [n] files found. *)
Definition opening_calls (H : Host) (u : string) (n : nat) : list Event :=
  [EvConnect (Some u);
   EvLog "✅ MongoDB Connected";
   EvReaddir (slidesDir H);
   EvLog ("📄 Found " ++ decimal n ++ " slide JSON files")].

(** A host with another file system and everything else the same. *)
Definition with_files (H : Host) (rd : string -> option (list string))
    (rf : string -> option string) : Host :=
  mkHost (MONGO_URI H) (cwd H) rd rf (JSON_parse H) (reachable H) (close_fault H)
    (Slide_schema H) (new_ObjectId H).

(** ** Three readings that the programs do not meet as they are worded *)

(** After the run, List answers exactly one entry per [.json] file. *)
Definition lists_one_entry_per_file (H : Host) (w : World) : Prop :=
  exists entries docs,
    readdir H (slidesDir H) = Some entries /\
    listed (collection (after H w)) = mkResponse 200 (Some (BodySlides docs)) /\
    Forall2 (document_of H) (json_files entries) docs.

(** After two runs in succession the collection has twice the documents it
    had after the first. *)
Definition count_doubles (H : Host) (w : World) : Prop :=
  length (collection (after H (after H w))) = 2 * length (collection (after H w)).

(** The run wrote one warning to the console and nothing else. *)
Definition warning_is_only_output (H : Host) (w : World) : Prop :=
  exists line, console (added H w) = [EvWarn line].

(* ------------------------------------------------------------------ *)
(** * Concrete hosts                                                   *)
(* ------------------------------------------------------------------ *)

Fixpoint lookup (k : string) (table : list (string * string)) : option string :=
  match table with
  | [] => None
  | (k', v) :: table' => if String.eqb k k' then Some v else lookup k table'
  end.

(** A connection that closes without error, and one whose first closing
    fails. *)
Definition closes : list Event -> option Error := fun _ => None.

Definition first_close_fails : list Event -> option Error :=
  fun tr =>
    if existsb (fun ev => match ev with EvClose => true | _ => false end) tr
    then None
    else Some (mkError "MongoNetworkError" "connection closed").

(** A host whose working directory is [/srv/app], with the given entries in
    [/srv/app/slides] and the given files; its schema accepts objects. *)
Definition host_of (uri : option string) (entries : option (list string))
    (files : list (string * string)) (fault : list Event -> option Error) : Host :=
  {| MONGO_URI := uri;
     cwd := "/srv/app";
     readdir := fun d => if String.eqb d "/srv/app/slides" then entries else None;
     readFile := fun p => lookup p files;
     JSON_parse := MiniJSON.parse;
     reachable := fun u => String.eqb u "mongodb://localhost:27017/deck";
     close_fault := fault;
     Slide_schema := fun v => match v with JObject _ => true | _ => false end;
     new_ObjectId := fun n => Oid.of_N (N.of_nat n + 1) |}.

Definition quoted (s : string) : string := dquote ++ s ++ dquote.

Definition slide_text (title : string) : string :=
  "{" ++ quoted "title" ++ ": " ++ quoted title ++ "}".

Definition local_uri : option string := Some "mongodb://localhost:27017/deck".

(** Two slides, a text file and an upper-case name. *)
Definition deck : Host :=
  host_of local_uri
    (Some ["intro.json"; "notes.txt"; "outro.json"; "DRAFT.JSON"])
    [("/srv/app/slides/intro.json", slide_text "Intro");
     ("/srv/app/slides/notes.txt", "remember the demo");
     ("/srv/app/slides/outro.json", slide_text "Thanks");
     ("/srv/app/slides/DRAFT.JSON", slide_text "Draft")]
    closes.

(** The same directory behind a connection whose first closing fails. *)
Definition flaky_deck : Host :=
  host_of local_uri
    (Some ["intro.json"; "notes.txt"; "outro.json"; "DRAFT.JSON"])
    [("/srv/app/slides/intro.json", slide_text "Intro");
     ("/srv/app/slides/notes.txt", "remember the demo");
     ("/srv/app/slides/outro.json", slide_text "Thanks");
     ("/srv/app/slides/DRAFT.JSON", slide_text "Draft")]
    first_close_fails.

(** Three files, the second of which stops in the middle of an object. *)
Definition broken_deck : Host :=
  host_of local_uri
    (Some ["a.json"; "b.json"; "c.json"])
    [("/srv/app/slides/a.json", slide_text "A");
     ("/srv/app/slides/b.json", ("{" ++ quoted "title" ++ ": ")%string);
     ("/srv/app/slides/c.json", slide_text "C")]
    closes.

(** A slides directory without any [.json] entry. *)
Definition empty_deck : Host :=
  host_of local_uri (Some ["notes.txt"; "DRAFT.JSON"])
    [("/srv/app/slides/notes.txt", "remember the demo");
     ("/srv/app/slides/DRAFT.JSON", slide_text "Draft")]
    closes.

(** No connection string in the environment. *)
Definition no_uri_deck : Host :=
  host_of None (Some ["intro.json"]) [("/srv/app/slides/intro.json", slide_text "Intro")] closes.

(** A working directory without a [slides] directory. *)
Definition no_dir_deck : Host := host_of local_uri None [] closes.

(** The file system of [deck] with other entries beside the two slides: the
    text file is gone, the upper-case file holds something else, a backup
    sits in between. *)
Definition deck_other_entries (d : string) : option (list string) :=
  if String.eqb d "/srv/app/slides"
  then Some ["intro.json"; "outro.json.bak"; "outro.json"; "DRAFT.JSON"]
  else None.

Definition deck_other_files (p : string) : option string :=
  lookup p
    [("/srv/app/slides/intro.json", slide_text "Intro");
     ("/srv/app/slides/outro.json.bak", "{{{");
     ("/srv/app/slides/outro.json", slide_text "Thanks");
     ("/srv/app/slides/DRAFT.JSON", "not json at all")].

(** A process that has not connected, in front of an empty collection. *)
Definition boot : World := mkWorld Disconnected [] 0 [].

(** The run over [broken_deck]: the world in which the loop starts, the one
    after the turn of [a.json], and the one in which the turn of [b.json]
    throws. *)
Definition broken_start : World :=
  at_loop broken_deck "mongodb://localhost:27017/deck" ["a.json"; "b.json"; "c.json"] boot.

Definition broken_after_a : World :=
  snd (for_of ["a.json"] (seed_file broken_deck) broken_start).

Definition broken_at_b : World :=
  snd (seed_file broken_deck "b.json" broken_after_a).

Definition syntax_error : Error := mkError "SyntaxError" "Unexpected token in JSON".

(** A store left by one run over [deck], as a server process sees it. *)
Definition deck_slides : list Slide := collection (after deck boot).

Definition intro_slide : Slide :=
  mkSlide (Oid.of_N 1) (JObject [("title", JString "Intro")]).

(* ------------------------------------------------------------------ *)
(** * Facts about identifiers                                          *)
(* ------------------------------------------------------------------ *)

Lemma byte_of_hex_to_hex (b : byte) :
  Oid.byte_of_hex (Oid.hex_digit (Byte.to_N b / 16)) (Oid.hex_digit (Byte.to_N b mod 16))
  = Some b.
Proof. destruct b; reflexivity. Qed.

Lemma bytes_of_hex_of_bytes (l : list byte) :
  Oid.bytes_of_hex (Oid.hex_of_bytes l) = Some l.
Proof.
  induction l as [|b l IH]; [reflexivity|].
  cbn [Oid.hex_of_bytes Oid.byte_to_hex Oid.bytes_of_hex].
  now rewrite byte_of_hex_to_hex, IH.
Qed.

(** An identifier written in hexadecimal casts back to itself. *)
Lemma cast_toHexString (i : Oid.t) : Oid.cast (Oid.toHexString i) = Some i.
Proof.
  unfold Oid.cast, Oid.toHexString. rewrite bytes_of_hex_of_bytes.
  destruct i as [[[[[[[[[[[b0 b1] b2] b3] b4] b5] b6] b7] b8] b9] b10] b11].
  reflexivity.
Qed.

Lemma bytes_eqb_eq (l1 l2 : list byte) : Oid.bytes_eqb l1 l2 = true <-> l1 = l2.
Proof.
  revert l2; induction l1 as [|b1 l1 IH]; intros [|b2 l2]; cbn; split;
    try congruence; try reflexivity.
  - intros [Hb Hl]%andb_true_iff. apply Byte.byte_dec_bl in Hb.
    apply IH in Hl. congruence.
  - intros E; injection E as -> ->. apply andb_true_iff; split.
    + now apply Byte.byte_dec_lb.
    + now apply IH.
Qed.

Lemma bytes_inj (i j : Oid.t) : Oid.bytes i = Oid.bytes j -> i = j.
Proof.
  destruct i as [[[[[[[[[[[a0 a1] a2] a3] a4] a5] a6] a7] a8] a9] a10] a11].
  destruct j as [[[[[[[[[[[b0 b1] b2] b3] b4] b5] b6] b7] b8] b9] b10] b11].
  cbn. congruence.
Qed.

Lemma oid_eqb_eq (i j : Oid.t) : Oid.eqb i j = true <-> i = j.
Proof.
  unfold Oid.eqb. rewrite bytes_eqb_eq. split; [apply bytes_inj | congruence].
Qed.

Lemma oid_eqb_refl (i : Oid.t) : Oid.eqb i i = true.
Proof. now apply oid_eqb_eq. Qed.

Lemma has_id_true (i : Oid.t) (l : list Slide) : has_id i l = true <-> In i (ids l).
Proof.
  unfold has_id. rewrite existsb_exists. split.
  - intros (j & Hj & E). apply oid_eqb_eq in E. now subst.
  - intros Hi. exists i. split; [assumption | apply oid_eqb_refl].
Qed.

Lemma has_id_false (i : Oid.t) (l : list Slide) : has_id i l = false <-> ~ In i (ids l).
Proof.
  rewrite <- has_id_true. destruct (has_id i l); split; congruence.
Qed.

Lemma ids_app (l1 l2 : list Slide) : ids (l1 ++ l2) = ids l1 ++ ids l2.
Proof. apply map_app. Qed.

(** Persisting a document under an identifier the store does not hold keeps
    identifiers unique. *)
Lemma unique_ids_persist (l : list Slide) (d : Slide) :
  unique_ids l -> ~ In (_id d) (ids l) -> unique_ids (l ++ [d]).
Proof.
  unfold unique_ids. intros Hl Hd. rewrite ids_app. apply NoDup_app.
  - assumption.
  - cbn. constructor; [intros [] | constructor].
  - intros a Ha [E|[]]. cbn in E. now subst.
Qed.

(** In a store with unique identifiers, looking a document up by its
    identifier finds that document. *)
Lemma find_by_id (l : list Slide) (d : Slide) :
  unique_ids l -> In d l -> find (fun s => Oid.eqb (_id s) (_id d)) l = Some d.
Proof.
  unfold unique_ids. induction l as [|x l IH]; intros Hu Hin; [destruct Hin|].
  cbn in Hu. apply NoDup_cons_iff in Hu as [Hx Hu]. cbn.
  destruct Hin as [->|Hin].
  - now rewrite oid_eqb_refl.
  - destruct (Oid.eqb (_id x) (_id d)) eqn:E.
    + apply oid_eqb_eq in E. exfalso. apply Hx. rewrite E.
      now apply in_map.
    + now apply IH.
Qed.

Lemma find_absent (l : list Slide) (i : Oid.t) :
  ~ In i (ids l) -> find (fun s => Oid.eqb (_id s) i) l = None.
Proof.
  induction l as [|x l IH]; intros Hn; [reflexivity|]. cbn.
  destruct (Oid.eqb (_id x) i) eqn:E.
  - apply oid_eqb_eq in E. exfalso. apply Hn. now left.
  - apply IH. intros Hi. apply Hn. now right.
Qed.

Lemma find_present (l : list Slide) (i : Oid.t) :
  In i (ids l) ->
  exists d, In d l /\ _id d = i /\ find (fun s => Oid.eqb (_id s) i) l = Some d.
Proof.
  induction l as [|x l IH]; intros Hi; [destruct Hi|]. cbn.
  destruct (Oid.eqb (_id x) i) eqn:E.
  - apply oid_eqb_eq in E. exists x. repeat split; [now left | assumption].
  - destruct Hi as [Hx|Hi].
    + cbn in Hx. apply oid_eqb_eq in Hx. congruence.
    + destruct (IH Hi) as (d & Hd & Hid & Hf). exists d.
      split; [now right | split; assumption].
Qed.

(* ------------------------------------------------------------------ *)
(** * Facts about [endsWith]                                           *)
(* ------------------------------------------------------------------ *)





(* ------------------------------------------------------------------ *)
(** * The loop of the Seeder                                           *)
(* ------------------------------------------------------------------ *)

Lemma for_of_app {S A : Type} (xs ys : list A) (body : A -> M S unit) (s : S) :
  for_of (xs ++ ys) body s =
  match for_of xs body s with
  | (Returned _, s') => for_of ys body s'
  | (Thrown e, s') => (Thrown e, s')
  end.
Proof.
  revert s; induction xs as [|x xs IH]; intros s; [reflexivity|].
  cbn [for_of app]. unfold bind.
  destruct (body x s) as [[[]|e] s1]; [apply IH | reflexivity].
Qed.

Lemma read_paths_app (tr1 tr2 : list Event) :
  read_paths (tr1 ++ tr2) = read_paths tr1 ++ read_paths tr2.
Proof. apply flat_map_app. Qed.

Section SeederFacts.

Variable H : Host.

Let file_path (file : string) : string := path_join (slidesDir H) file.

(** One turn of the loop, step by step. *)
Lemma seed_file_run (file : string) (w : World) :
  seed_file H file w =
  let w1 := emit (EvReadFile (file_path file)) w in
  match readFile H (file_path file) with
  | None =>
      (Thrown (mkError "Error"
                 ("ENOENT: no such file or directory, open " ++ file_path file)), w1)
  | Some text =>
      match JSON_parse H text with
      | None => (Thrown (mkError "SyntaxError" "Unexpected token in JSON"), w1)
      | Some data =>
          match Slide_create H data w1 with
          | (Returned _, w2) => (Returned tt, emit (EvLog ("📥 Inserted " ++ file)) w2)
          | (Thrown e, w2) => (Thrown e, w2)
          end
      end
  end.
Proof.
  unfold seed_file, bind, fs_readFileSync, JSON_parse_text, file_path. cbn zeta.
  destruct (readFile H _) as [text|]; [|reflexivity].
  destruct (JSON_parse H text) as [data|]; reflexivity.
Qed.

(** A turn that returns has persisted the parsed content of its file under
    an identifier the collection did not hold. *)
Lemma seed_file_returned (file : string) (w w' : World) :
  seed_file H file w = (Returned tt, w') ->
  exists data,
    parsed H file = Some data /\
    Slide_schema H data = true /\
    connection w = Connected /\
    has_id (new_ObjectId H (oids_used w)) (collection w) = false /\
    w' = mkWorld Connected
           (collection w ++ [mkSlide (new_ObjectId H (oids_used w)) data])
           (S (oids_used w))
           (trace w ++ [EvReadFile (file_path file); EvCreate data;
                        EvLog ("📥 Inserted " ++ file)]).
Proof.
  rewrite seed_file_run. unfold parsed. fold (file_path file). cbn zeta.
  destruct (readFile H (file_path file)) as [text|]; [|discriminate].
  destruct (JSON_parse H text) as [data|]; [|discriminate].
  unfold Slide_create. cbn [emit take_oid persist connection collection oids_used trace _id].
  destruct (Slide_schema H data) eqn:Hs; cbn [negb]; [|discriminate].
  destruct (connection w) eqn:Hc; [discriminate|].
  destruct (has_id _ (collection w)) eqn:Hid; [discriminate|].
  intros E. injection E as <-. exists data.
  repeat (split; [first [reflexivity | assumption]|]).
  unfold emit, persist, take_oid. cbn [connection collection oids_used trace].
  rewrite Hc, <- !app_assoc. reflexivity.
Qed.

(** A turn that throws has persisted nothing, and has read its own file
    only. *)
Lemma seed_file_thrown (file : string) (e : Error) (w w' : World) :
  seed_file H file w = (Thrown e, w') ->
  collection w' = collection w /\
  connection w' = connection w /\
  read_paths (trace w') = read_paths (trace w) ++ [file_path file].
Proof.
  rewrite seed_file_run. cbn zeta.
  destruct (readFile H (file_path file)) as [text|].
  - destruct (JSON_parse H text) as [data|].
    + unfold Slide_create.
      cbn [emit take_oid persist connection collection oids_used trace _id].
      destruct (Slide_schema H data); cbn [negb].
      * destruct (connection w) eqn:Hc.
        -- intros E; injection E as _ <-.
           cbn [emit take_oid persist connection collection trace].
           now rewrite !read_paths_app, <- app_assoc, app_nil_r.
        -- destruct (has_id _ (collection w)); [|discriminate].
           intros E; injection E as _ <-.
           cbn [emit take_oid persist connection collection trace].
           now rewrite !read_paths_app, <- app_assoc, app_nil_r.
      * intros E; injection E as _ <-.
        cbn [emit take_oid persist connection collection trace].
        now rewrite !read_paths_app, <- app_assoc, app_nil_r.
    + intros E; injection E as _ <-. cbn [emit take_oid persist connection collection trace].
      now rewrite read_paths_app.
  - intros E; injection E as _ <-. cbn [emit take_oid persist connection collection trace].
    now rewrite read_paths_app.
Qed.

(** A loop that returns has appended one document per file, in order, each
    the document of its file, under identifiers that are new to the
    collection; it has read every file once, in order. *)
Lemma loop_returned (files : list string) :
  forall w w',
    for_of files (seed_file H) w = (Returned tt, w') ->
    exists docs,
      Forall2 (document_of H) files docs /\
      collection w' = collection w ++ docs /\
      (forall d, In d docs -> ~ In (_id d) (ids (collection w))) /\
      (unique_ids (collection w) -> unique_ids (collection w')) /\
      connection w' = connection w /\
      read_paths (trace w') = read_paths (trace w) ++ map file_path files.
Proof.
  induction files as [|f files IH]; intros w w' Hrun.
  - cbn in Hrun. injection Hrun as <-. exists [].
    rewrite !app_nil_r.
    split; [constructor|]. split; [reflexivity|]. split; [intros d []|].
    split; [auto|]. split; reflexivity.
  - cbn [for_of] in Hrun. unfold bind at 1 in Hrun.
    destruct (seed_file H f w) as [[[]|e] w1] eqn:Hf; [|discriminate].
    apply seed_file_returned in Hf as (data & Hp & _ & Hc & Hid & ->).
    apply IH in Hrun as (docs & HF & Hcol & Hnew & Huniq & Hconn & Hreads).
    cbn [collection connection trace] in *.
    set (d := mkSlide (new_ObjectId H (oids_used w)) data) in *.
    apply has_id_false in Hid.
    exists (d :: docs).
    split; [|split; [|split; [|split; [|split]]]].
    + constructor; assumption.
    + now rewrite Hcol, <- app_assoc.
    + intros x [<-|Hx]; [exact Hid|].
      intros Hin. apply (Hnew x Hx). rewrite ids_app. apply in_or_app. now left.
    + intros Hu. apply Huniq. now apply unique_ids_persist.
    + congruence.
    + rewrite Hreads, read_paths_app, <- app_assoc. reflexivity.
Qed.

(** A loop that throws has gone through a first part of the list, then
    thrown in the turn of the next file. *)
Lemma loop_thrown (files : list string) :
  forall w w' e,
    for_of files (seed_file H) w = (Thrown e, w') ->
    exists before file later w1,
      files = before ++ file :: later /\
      for_of before (seed_file H) w = (Returned tt, w1) /\
      seed_file H file w1 = (Thrown e, w').
Proof.
  induction files as [|f files IH]; intros w w' e Hrun; [discriminate|].
  cbn [for_of] in Hrun. unfold bind at 1 in Hrun.
  destruct (seed_file H f w) as [[[]|e1] w1] eqn:Hf.
  - apply IH in Hrun as (before & file & later & w2 & -> & Hb & Hfile).
    exists (f :: before), file, later, w2. repeat split; [|assumption].
    cbn [for_of]. unfold bind at 1. now rewrite Hf.
  - injection Hrun as -> ->. exists [], f, files, w. repeat split. assumption.
Qed.

(** The converse: a first part that returns followed by a turn that throws
    is a loop that throws there, whatever comes later in the list. *)
Lemma loop_stops (before later : list string) (file : string) (e : Error)
    (w w1 w2 : World) :
  for_of before (seed_file H) w = (Returned tt, w1) ->
  seed_file H file w1 = (Thrown e, w2) ->
  for_of (before ++ file :: later) (seed_file H) w = (Thrown e, w2).
Proof.
  intros Hb Hf. rewrite for_of_app, Hb. cbn [for_of]. unfold bind at 1.
  now rewrite Hf.
Qed.

End SeederFacts.

(* ------------------------------------------------------------------ *)
(** * The runs of the Seeder                                           *)
(* ------------------------------------------------------------------ *)

Tactic Notation "world_simpl" :=
  cbn [emit take_oid persist set_connection at_loop
       connection collection oids_used trace fst snd].

Tactic Notation "world_simpl" "in" hyp(Hyp) :=
  cbn [emit take_oid persist set_connection at_loop
       connection collection oids_used trace fst snd] in Hyp.

Section RunFacts.

Variable H : Host.

(** The [try] block once the store is connected and the directory listed:
    the empty case, then the loop and what follows it. *)
Lemma try_listed (u : string) (entries : list string) (w : World) :
  MONGO_URI H = Some u -> reachable H u = true ->
  readdir H (slidesDir H) = Some entries ->
  seedSlides_try H w =
  let files := json_files entries in
  let w0 := at_loop H u files w in
  if Nat.eqb (length files) 0 then
    (Returned tt, emit (EvWarn "⚠️ No JSON files found in slides directory") w0)
  else
    match for_of files (seed_file H) w0 with
    | (Returned _, w1) =>
        mongoose_connection_close H
          (emit (EvLog "🎉 All slides inserted successfully!") w1)
    | (Thrown e, w1) => (Thrown e, w1)
    end.
Proof.
  intros Hu Hr Hd.
  unfold seedSlides_try, bind, mongoose_connect, fs_readdirSync, console_log,
    console_warn, json_files, at_loop.
  rewrite Hu, Hr, Hd. cbn zeta.
  destruct (Nat.eqb _ 0); [reflexivity|].
  destruct (for_of _ _ _) as [[[]|e] w1]; reflexivity.
Qed.

(** Without a reachable store the [try] block throws at once. *)
Lemma try_unconnected (w : World) :
  (forall u, MONGO_URI H = Some u -> reachable H u = false) ->
  exists e, seedSlides_try H w = (Thrown e, emit (EvConnect (MONGO_URI H)) w).
Proof.
  intros Hno. unfold seedSlides_try, bind, mongoose_connect.
  destruct (MONGO_URI H) as [u|]; [|eexists; reflexivity].
  rewrite (Hno u eq_refl). eexists; reflexivity.
Qed.

(** A run that completes was connected and has listed the directory. *)
Lemma completes_listed (w : World) :
  completes H w ->
  exists u entries,
    MONGO_URI H = Some u /\ reachable H u = true /\
    readdir H (slidesDir H) = Some entries.
Proof.
  unfold completes, seedSlides_try, bind, mongoose_connect, fs_readdirSync,
    console_log.
  destruct (MONGO_URI H) as [u|]; [|discriminate].
  destruct (reachable H u) eqn:Hr; [|discriminate].
  destruct (readdir H (slidesDir H)) as [entries|]; [|discriminate].
  intros _. exists u, entries. repeat split. exact Hr.
Qed.

(** When the [try] block returns, the [catch] block does not run. *)
Lemma seedSlides_completes (w : World) :
  completes H w -> seedSlides H w = seedSlides_try H w.
Proof.
  unfold completes, seedSlides, try_catch.
  destruct (seedSlides_try H w) as [[[]|e] w1]; [reflexivity | discriminate].
Qed.

(** When the [try] block throws, the run is the [catch] block from there. *)
Lemma seedSlides_caught (w w' : World) (e : Error) :
  seedSlides_try H w = (Thrown e, w') ->
  seedSlides H w =
  mongoose_connection_close H (emit (EvError "❌ Error while seeding slides:" e) w').
Proof.
  intros Ht. unfold seedSlides, try_catch. rewrite Ht. reflexivity.
Qed.

Lemma json_files_none (entries : list string) :
  Nat.eqb (length (json_files entries)) 0 = true -> json_files entries = [].
Proof. destruct (json_files entries); [reflexivity | discriminate]. Qed.

(** A run that completes appends to the collection one document per [.json]
    entry, in listing order, each the document of its file and each under an
    identifier new to the collection; it reads those files and no other. *)
Lemma completes_appends (w : World) :
  completes H w ->
  exists entries docs,
    readdir H (slidesDir H) = Some entries /\
    Forall2 (document_of H) (json_files entries) docs /\
    collection (after H w) = collection w ++ docs /\
    (forall d, In d docs -> ~ In (_id d) (ids (collection w))) /\
    (unique_ids (collection w) -> unique_ids (collection (after H w))) /\
    read_paths (trace (after H w)) =
      read_paths (trace w) ++ map (path_join (slidesDir H)) (json_files entries).
Proof.
  intros Hc. unfold after. rewrite (seedSlides_completes Hc).
  destruct (completes_listed Hc) as (u & entries & Hu & Hr & Hd).
  unfold completes in Hc. rewrite (try_listed w Hu Hr Hd) in Hc |- *. cbn zeta in *.
  exists entries.
  destruct (Nat.eqb (length (json_files entries)) 0) eqn:Hz.
  - apply json_files_none in Hz. rewrite Hz. exists []. world_simpl.
    rewrite !app_nil_r, !read_paths_app. cbn. rewrite !app_nil_r.
    split; [exact Hd|]. split; [constructor|]. split; [reflexivity|].
    split; [intros d []|]. split; [auto | reflexivity].
  - destruct (for_of _ _ _) as [[[]|e] w1] eqn:Hloop; [|discriminate].
    apply loop_returned in Hloop
      as (docs & HF & Hcol & Hnew & Huniq & _ & Hreads).
    unfold mongoose_connection_close in Hc |- *.
    destruct (close_fault H _); [discriminate|].
    world_simpl. world_simpl in Hcol. world_simpl in Hnew.
    world_simpl in Huniq. world_simpl in Hreads.
    exists docs.
    split; [exact Hd|]. split; [assumption|]. split; [assumption|].
    split; [assumption|]. split; [assumption|].
    rewrite !read_paths_app, Hreads, !read_paths_app. cbn.
    now rewrite !app_nil_r.
Qed.

End RunFacts.

(* ------------------------------------------------------------------ *)
(** * Closing, reading and listing                                     *)
(* ------------------------------------------------------------------ *)

Lemma skipn_length_app {A : Type} (l1 l2 : list A) : skipn (length l1) (l1 ++ l2) = l2.
Proof. induction l1 as [|x l1 IH]; [reflexivity | exact IH]. Qed.




(** The documents of the same files have the same fields. *)
Lemma document_of_fields (H : Host) (files : list string) (l1 : list Slide) :
  Forall2 (document_of H) files l1 ->
  forall l2, Forall2 (document_of H) files l2 -> map fields l1 = map fields l2.
Proof.
  induction 1 as [|f d1 files l1 Hd1 _ IH]; intros l2 H2; inversion H2; subst.
  - reflexivity.
  - cbn. f_equal; [|now apply IH].
    unfold document_of in *. congruence.
Qed.

(** [GET /] at a connected server answers 200 with the whole collection. *)
Lemma listed_all (slides : list Slide) :
  listed slides = mkResponse 200 (Some (BodySlides slides)).
Proof. reflexivity. Qed.

Section ClosingFacts.

Variable H : Host.

(** Closing adds the call to the trace and touches nothing else but the
    connection, which it releases unless it fails. *)
Lemma close_run (w : World) :
  collection (snd (mongoose_connection_close H w)) = collection w /\
  trace (snd (mongoose_connection_close H w)) = trace w ++ [EvClose] /\
  (close_fault H (trace w) = None ->
   mongoose_connection_close H w =
   (Returned tt, set_connection Disconnected (emit EvClose w))).
Proof.
  unfold mongoose_connection_close.
  destruct (close_fault H (trace w)); repeat split; congruence.
Qed.

(** When the directory cannot be listed the [try] block throws before any
    file is read. *)
Lemma try_unlisted (u : string) (w : World) :
  MONGO_URI H = Some u -> reachable H u = true ->
  readdir H (slidesDir H) = None ->
  exists e,
    seedSlides_try H w =
    (Thrown e,
     emit (EvReaddir (slidesDir H))
       (emit (EvLog "✅ MongoDB Connected")
          (set_connection Connected (emit (EvConnect (Some u)) w)))).
Proof.
  intros Hu Hr Hd.
  unfold seedSlides_try, bind, mongoose_connect, fs_readdirSync, console_log.
  rewrite Hu, Hr, Hd. eexists; reflexivity.
Qed.



(** Every run, complete or not, keeps the identifiers of the collection
    unique. *)
Lemma try_keeps_unique_ids (w : World) :
  unique_ids (collection w) -> unique_ids (collection (snd (seedSlides_try H w))).
Proof.
  intros Hu.
  destruct (MONGO_URI H) as [u|] eqn:Hu'.
  2:{ destruct (try_unconnected H w) as (e & ->); [rewrite Hu'; discriminate|].
      exact Hu. }
  destruct (reachable H u) eqn:Hr.
  2:{ destruct (try_unconnected H w) as (e & ->); [|exact Hu].
      rewrite Hu'. intros u' E. injection E as <-. exact Hr. }
  destruct (readdir H (slidesDir H)) as [entries|] eqn:Hd.
  2:{ destruct (try_unlisted w Hu' Hr Hd) as (e & ->). exact Hu. }
  rewrite (try_listed H w Hu' Hr Hd). cbn zeta.
  destruct (Nat.eqb (length (json_files entries)) 0); [exact Hu|].
  destruct (for_of _ _ _) as [[[]|e] w1] eqn:Hloop.
  - apply loop_returned in Hloop as (docs & _ & _ & _ & Huniq & _).
    destruct (close_run (emit (EvLog "🎉 All slides inserted successfully!") w1))
      as (-> & _). world_simpl. apply Huniq. exact Hu.
  - apply loop_thrown in Hloop as (before & file & later & w2 & _ & Hb & Hf).
    apply loop_returned in Hb as (docs & _ & _ & _ & Huniq & _).
    apply seed_file_thrown in Hf as (Hcol & _). cbn [snd]. rewrite Hcol.
    apply Huniq. exact Hu.
Qed.

(** X13.  Every run of the Seeder, whether it completes, fails at the
    connection or the listing, or stops at some file, keeps the identifiers of
    the collection unique: a collection without two documents of the same
    identifier before the run has none after it. *)
Lemma seedSlides_keeps_unique_ids (w : World) :
  unique_ids (collection w) -> unique_ids (collection (after H w)).
Proof.
  intros Hu. apply try_keeps_unique_ids in Hu.
  unfold after, seedSlides, try_catch.
  destruct (seedSlides_try H w) as [[[]|e] w1]; cbn [snd] in *; [exact Hu|].
  unfold seedSlides_catch, bind, console_error.
  destruct (close_run (emit (EvError "❌ Error while seeding slides:" e) w1))
    as (-> & _).
  exact Hu.
Qed.

End ClosingFacts.

(* ------------------------------------------------------------------ *)
(** * The Seeder                                                       *)
(* ------------------------------------------------------------------ *)

(** C1, as amended.  After a Seeder run that completes without error, [GET /]
    answers 200 with the documents the collection held before the run,
    followed by exactly one entry per entry of the directory whose name ends
    in [.json], in listing order, each equal to the parsed content of its file
    apart from the identifier the store assigned.  On a collection that was
    empty before the run these entries are the whole answer. *)
Theorem seed_then_list (H : Host) (w : World) :
  completes H w ->
  exists entries docs,
    readdir H (slidesDir H) = Some entries /\
    Forall2 (document_of H) (json_files entries) docs /\
    listed (collection (after H w)) =
      mkResponse 200 (Some (BodySlides (collection w ++ docs))) /\
    (collection w = [] ->
     listed (collection (after H w)) = mkResponse 200 (Some (BodySlides docs))).
Proof.
  intros Hc.
  destruct (completes_appends Hc) as (entries & docs & Hd & HF & Hcol & _).
  exists entries, docs. rewrite listed_all, Hcol.
  split; [exact Hd|]. split; [exact HF|]. split; [reflexivity|].
  intros ->. reflexivity.
Qed.

Lemma seed_then_list_witness :
  completes deck boot /\
  exists entries docs,
    readdir deck (slidesDir deck) = Some entries /\
    Forall2 (document_of deck) (json_files entries) docs /\
    listed (collection (after deck boot)) =
      mkResponse 200 (Some (BodySlides (collection boot ++ docs))) /\
    (collection boot = [] ->
     listed (collection (after deck boot)) = mkResponse 200 (Some (BodySlides docs))).
Proof.
  split; [vm_compute; reflexivity|].
  apply (@seed_then_list deck boot). vm_compute; reflexivity.
Defined.

(** C1 as worded fails on a collection that already holds documents: a
    second run over [deck] completes, and [GET /] then answers four entries
    for the two [.json] files. *)
Lemma second_run_lists_each_file_twice :
  completes deck (after deck boot) /\
  ~ lists_one_entry_per_file deck (after deck boot).
Proof.
  split; [vm_compute; reflexivity|].
  intros (entries & docs & Hd & Hl & HF).
  vm_compute in Hd. injection Hd as <-.
  rewrite listed_all in Hl. injection Hl as <-.
  apply Forall2_length in HF. vm_compute in HF. discriminate.
Qed.

(** C2.  When the turn of the Nth [.json] file throws, after the files
    before it went through, the run is from there the [catch] block and
    nothing else: the error is written to the console and the connection is
    closed.  The documents of the N-1 files before stay in the collection and
    are all the run has added; the Nth file and those before it are the only
    files read, so no later file is touched; and unless the closing itself
    fails the run ends normally with the connection released. *)
Theorem seed_aborts_at_failing_file (H : Host) (u : string) (entries : list string)
    (before later : list string) (file : string) (e : Error) (w w1 w2 : World) :
  MONGO_URI H = Some u -> reachable H u = true ->
  readdir H (slidesDir H) = Some entries ->
  json_files entries = before ++ file :: later ->
  for_of before (seed_file H) (at_loop H u (json_files entries) w) = (Returned tt, w1) ->
  seed_file H file w1 = (Thrown e, w2) ->
  seedSlides H w = mongoose_connection_close H (emit (seeding_error e) w2) /\
  (exists docs,
     Forall2 (document_of H) before docs /\
     collection (after H w) = collection w ++ docs) /\
  files_read H w = map (path_join (slidesDir H)) (before ++ [file]) /\
  (exists tr, trace (after H w) = tr ++ [seeding_error e; EvClose]) /\
  (close_fault H (trace w2 ++ [seeding_error e]) = None ->
   fst (seedSlides H w) = Returned tt /\ connection (after H w) = Disconnected).
Proof.
  intros Hu Hr Hd Hsplit Hb Hf.
  assert (Htry : seedSlides_try H w = (Thrown e, w2)).
  { rewrite (try_listed H w Hu Hr Hd). cbn zeta.
    rewrite Hsplit in Hb |- *.
    replace (Nat.eqb (length (before ++ file :: later)) 0) with false
      by (symmetry; apply Nat.eqb_neq; rewrite length_app; cbn [length]; lia).
    now rewrite (@loop_stops H before later file e _ w1 w2 Hb Hf). }
  pose proof (seedSlides_caught H w Htry) as Hrun. fold (seeding_error e) in Hrun.
  destruct (close_run H (emit (seeding_error e) w2)) as (Hcol & Htr & Hok).
  apply loop_returned in Hb as (docs & HF & Hcolb & _ & _ & _ & Hreads).
  apply seed_file_thrown in Hf as (Hcolf & _ & Hread).
  world_simpl in Hcolb. world_simpl in Hreads.
  rewrite !read_paths_app in Hreads. cbn in Hreads. rewrite !app_nil_r in Hreads.
  split; [exact Hrun|]. split; [|split; [|split]].
  - exists docs. split; [exact HF|].
    unfold after. rewrite Hrun, Hcol. world_simpl. congruence.
  - unfold files_read, after. rewrite Hrun, Htr. world_simpl.
    rewrite !read_paths_app, Hread, Hreads. cbn. rewrite !app_nil_r.
    rewrite map_app, <- app_assoc. apply skipn_length_app.
  - exists (trace w2). unfold after. rewrite Hrun, Htr. world_simpl.
    now rewrite <- app_assoc.
  - intros Hnone. unfold after. rewrite Hrun, (Hok Hnone). split; reflexivity.
Qed.

Lemma seed_aborts_at_failing_file_witness :
  seedSlides broken_deck boot =
    mongoose_connection_close broken_deck (emit (seeding_error syntax_error) broken_at_b) /\
  (exists docs,
     Forall2 (document_of broken_deck) ["a.json"] docs /\
     collection (after broken_deck boot) = collection boot ++ docs) /\
  files_read broken_deck boot =
    map (path_join (slidesDir broken_deck)) (["a.json"] ++ ["b.json"]) /\
  (exists tr, trace (after broken_deck boot) = tr ++ [seeding_error syntax_error; EvClose]) /\
  (close_fault broken_deck (trace broken_at_b ++ [seeding_error syntax_error]) = None ->
   fst (seedSlides broken_deck boot) = Returned tt /\
   connection (after broken_deck boot) = Disconnected).
Proof.
  apply (@seed_aborts_at_failing_file broken_deck "mongodb://localhost:27017/deck"
           ["a.json"; "b.json"; "c.json"] ["a.json"] ["c.json"] "b.json"
           syntax_error boot broken_after_a broken_at_b);
    vm_compute; reflexivity.
Defined.

(** C3, as amended.  The Seeder is not idempotent.  When two runs over the
    same files both complete without error, the second starting from the
    collection the first has left, each run appends exactly one document per
    [.json] entry of the directory, in listing order, each the document of
    its file.  So the second run inserts the document of each file again: it
    appends as many documents as the first, with the same fields in the same
    order, each under an identifier that no document persisted before it
    carries; and as soon as one file qualifies, the collection after the
    second run is not the collection after the first, but a longer one.  When
    the collection was empty before the first run, the count after the second
    run is double the count after the first. *)
Theorem seed_twice_inserts_again (H : Host) (w w' : World) :
  completes H w ->
  collection w' = collection (after H w) ->
  completes H w' ->
  exists entries first second,
    readdir H (slidesDir H) = Some entries /\
    Forall2 (document_of H) (json_files entries) first /\
    Forall2 (document_of H) (json_files entries) second /\
    collection (after H w) = collection w ++ first /\
    collection (after H w') = collection (after H w) ++ second /\
    map fields second = map fields first /\
    length second = length first /\
    (forall d, In d second -> ~ In (_id d) (ids (collection (after H w)))) /\
    (json_files entries <> [] ->
     collection (after H w') <> collection (after H w) /\
     length (collection (after H w)) < length (collection (after H w'))) /\
    (collection w = [] ->
     length (collection (after H w')) = 2 * length (collection (after H w))).
Proof.
  intros Hc1 Hsame Hc2.
  destruct (completes_appends Hc1) as (entries & first & Hd1 & HF1 & Hcol1 & _).
  destruct (completes_appends Hc2) as (entries' & second & Hd2 & HF2 & Hcol2 & Hnew2 & _).
  assert (entries' = entries) as -> by congruence.
  pose proof (document_of_fields HF2 HF1) as Hfields.
  assert (Hlen : length second = length first).
  { rewrite <- (length_map fields second), Hfields. apply length_map. }
  exists entries, first, second. rewrite Hsame in Hcol2, Hnew2.
  split; [exact Hd1|]. split; [exact HF1|]. split; [exact HF2|].
  split; [exact Hcol1|]. split; [exact Hcol2|]. split; [exact Hfields|].
  split; [exact Hlen|]. split; [exact Hnew2|]. split.
  - intros Hsome.
    assert (Hgrows : length (collection (after H w)) < length (collection (after H w'))).
    { rewrite Hcol2, length_app. apply Forall2_length in HF2.
      destruct (json_files entries); [congruence|]. cbn in HF2. lia. }
    split; [|exact Hgrows]. intros E. rewrite E in Hgrows. lia.
  - intros Hempty. rewrite Hcol2, Hcol1, Hempty. cbn [app].
    rewrite length_app. lia.
Qed.

Lemma seed_twice_inserts_again_witness :
  completes deck boot /\
  collection (after deck boot) = collection (after deck boot) /\
  completes deck (after deck boot) /\
  exists entries first second,
    readdir deck (slidesDir deck) = Some entries /\
    Forall2 (document_of deck) (json_files entries) first /\
    Forall2 (document_of deck) (json_files entries) second /\
    collection (after deck boot) = collection boot ++ first /\
    collection (after deck (after deck boot)) = collection (after deck boot) ++ second /\
    map fields second = map fields first /\
    length second = length first /\
    (forall d, In d second -> ~ In (_id d) (ids (collection (after deck boot)))) /\
    (json_files entries <> [] ->
     collection (after deck (after deck boot)) <> collection (after deck boot) /\
     length (collection (after deck boot)) <
     length (collection (after deck (after deck boot)))) /\
    (collection boot = [] ->
     length (collection (after deck (after deck boot))) =
     2 * length (collection (after deck boot))).
Proof.
  split; [vm_compute; reflexivity|]. split; [reflexivity|].
  split; [vm_compute; reflexivity|].
  apply (@seed_twice_inserts_again deck boot (after deck boot));
    [vm_compute; reflexivity | reflexivity | vm_compute; reflexivity].
Defined.

(** C3 as worded fails when the first of the two runs starts on a collection
    that is not empty: after one run over [deck] the collection holds two
    documents, and two further runs, both complete, leave four and then six,
    not eight. *)
Lemma third_run_does_not_double :
  completes deck (after deck boot) /\
  completes deck (after deck (after deck boot)) /\
  ~ count_doubles deck (after deck boot).
Proof.
  split; [vm_compute; reflexivity|]. split; [vm_compute; reflexivity|].
  unfold count_doubles. vm_compute. discriminate.
Qed.

(** C6, as amended.  When the store is connected and the directory holds no
    entry ending in [.json], the run ends early and without error: the
    collection is as it was, and the calls of the run are the connection, the
    listing and three console lines (the two informational lines of every
    connected run, then the warning).  No error is reported, no file is read,
    and the connection is not closed: it is still open when the run ends. *)
Theorem seed_empty_directory (H : Host) (u : string) (entries : list string) (w : World) :
  MONGO_URI H = Some u -> reachable H u = true ->
  readdir H (slidesDir H) = Some entries ->
  json_files entries = [] ->
  seedSlides H w =
    (Returned tt,
     mkWorld Connected (collection w) (oids_used w)
       (trace w ++
        [EvConnect (Some u);
         EvLog "✅ MongoDB Connected";
         EvReaddir (slidesDir H);
         EvLog "📄 Found 0 slide JSON files";
         EvWarn "⚠️ No JSON files found in slides directory"])) /\
  console (added H w) =
    [EvLog "✅ MongoDB Connected";
     EvLog "📄 Found 0 slide JSON files";
     EvWarn "⚠️ No JSON files found in slides directory"] /\
  ~ In EvClose (added H w) /\
  connection (after H w) = Connected /\
  collection (after H w) = collection w.
Proof.
  intros Hu Hr Hd Hnone.
  assert (Hrun : seedSlides H w =
    (Returned tt,
     mkWorld Connected (collection w) (oids_used w)
       (trace w ++
        [EvConnect (Some u);
         EvLog "✅ MongoDB Connected";
         EvReaddir (slidesDir H);
         EvLog "📄 Found 0 slide JSON files";
         EvWarn "⚠️ No JSON files found in slides directory"]))).
  { unfold seedSlides, try_catch. rewrite (try_listed H w Hu Hr Hd). cbn zeta.
    rewrite Hnone. cbn [length Nat.eqb]. unfold at_loop, emit, set_connection.
    cbn [connection collection oids_used trace]. rewrite <- !app_assoc.
    reflexivity. }
  unfold added, after. rewrite Hrun. cbn [snd trace connection collection].
  rewrite skipn_length_app.
  split; [reflexivity|]. split; [reflexivity|]. split; [|split; reflexivity].
  cbn. intros [E|[E|[E|[E|[E|[]]]]]]; discriminate.
Qed.

Lemma seed_empty_directory_witness :
  seedSlides empty_deck boot =
    (Returned tt,
     mkWorld Connected (collection boot) (oids_used boot)
       (trace boot ++
        [EvConnect (Some "mongodb://localhost:27017/deck");
         EvLog "✅ MongoDB Connected";
         EvReaddir (slidesDir empty_deck);
         EvLog "📄 Found 0 slide JSON files";
         EvWarn "⚠️ No JSON files found in slides directory"])) /\
  console (added empty_deck boot) =
    [EvLog "✅ MongoDB Connected";
     EvLog "📄 Found 0 slide JSON files";
     EvWarn "⚠️ No JSON files found in slides directory"] /\
  ~ In EvClose (added empty_deck boot) /\
  connection (after empty_deck boot) = Connected /\
  collection (after empty_deck boot) = collection boot.
Proof.
  apply (@seed_empty_directory empty_deck "mongodb://localhost:27017/deck"
           ["notes.txt"; "DRAFT.JSON"] boot);
    vm_compute; reflexivity.
Defined.

(** C6 as worded fails on the console: over [empty_deck], which has no
    [.json] entry, the warning is the third line the run writes, after the two
    informational lines. *)
Lemma empty_directory_logs_before_warning :
  json_files ["notes.txt"; "DRAFT.JSON"] = [] /\
  readdir empty_deck (slidesDir empty_deck) = Some ["notes.txt"; "DRAFT.JSON"] /\
  ~ warning_is_only_output empty_deck boot.
Proof.
  split; [vm_compute; reflexivity|]. split; [vm_compute; reflexivity|].
  intros (line & Hline). vm_compute in Hline. discriminate.
Qed.



(** C10.  Whatever the [try] block throws, from a failed connection onwards,
    the one handler takes it: it writes the error to the console and calls the
    closing of the connection, and the run ends there.  Provided that this
    closing in the handler does not fail, [seedSlides] completes normally.
    When the store cannot be reached the calls of the run are the connection
    attempt, the error line and the closing. *)
Theorem seed_never_rejects (H : Host) (w : World) :
  (forall e w',
     seedSlides_try H w = (Thrown e, w') ->
     close_fault H (trace w' ++ [seeding_error e]) = None) ->
  fst (seedSlides H w) = Returned tt /\
  (forall e w',
     seedSlides_try H w = (Thrown e, w') ->
     after H w = set_connection Disconnected (emit EvClose (emit (seeding_error e) w'))) /\
  ((forall u, MONGO_URI H = Some u -> reachable H u = false) ->
   exists e,
     after H w =
     mkWorld Disconnected (collection w) (oids_used w)
       (trace w ++ [EvConnect (MONGO_URI H); seeding_error e; EvClose])).
Proof.
  intros Hcloses.
  assert (Hcaught : forall e w',
    seedSlides_try H w = (Thrown e, w') ->
    seedSlides H w =
    (Returned tt, set_connection Disconnected (emit EvClose (emit (seeding_error e) w')))).
  { intros e w' Ht. rewrite (seedSlides_caught H w Ht).
    fold (seeding_error e).
    destruct (close_run H (emit (seeding_error e) w')) as (_ & _ & Hok).
    apply Hok. exact (Hcloses e w' Ht). }
  split; [|split].
  - destruct (seedSlides_try H w) as [[[]|e] w'] eqn:Ht.
    + rewrite seedSlides_completes; [now rewrite Ht|].
      unfold completes. now rewrite Ht.
    + now rewrite (Hcaught e w' eq_refl).
  - intros e w' Ht. unfold after. now rewrite (Hcaught e w' Ht).
  - intros Hno. destruct (try_unconnected H w Hno) as (e & Ht).
    exists e. unfold after. rewrite (Hcaught _ _ Ht).
    unfold set_connection, emit. cbn [snd connection collection oids_used trace].
    now rewrite <- !app_assoc.
Qed.

Lemma seed_never_rejects_witness :
  (forall e w',
     seedSlides_try flaky_deck boot = (Thrown e, w') ->
     close_fault flaky_deck (trace w' ++ [seeding_error e]) = None) /\
  fst (seedSlides flaky_deck boot) = Returned tt /\
  (forall e w',
     seedSlides_try flaky_deck boot = (Thrown e, w') ->
     after flaky_deck boot =
     set_connection Disconnected (emit EvClose (emit (seeding_error e) w'))) /\
  ((forall u, MONGO_URI flaky_deck = Some u -> reachable flaky_deck u = false) ->
   exists e,
     after flaky_deck boot =
     mkWorld Disconnected (collection boot) (oids_used boot)
       (trace boot ++ [EvConnect (MONGO_URI flaky_deck); seeding_error e; EvClose])).
Proof.
  assert (Hcloses : forall e w',
    seedSlides_try flaky_deck boot = (Thrown e, w') ->
    close_fault flaky_deck (trace w' ++ [seeding_error e]) = None).
  { intros e w' Ht. vm_compute in Ht. injection Ht as <- <-.
    vm_compute. reflexivity. }
  split; [exact Hcloses|].
  apply (@seed_never_rejects flaky_deck boot). exact Hcloses.
Defined.

(** The proviso of C10 is needed: when the closing in the handler fails, its
    rejection leaves [seedSlides]. *)
Lemma seed_rejects_when_close_fails (H : Host) (w w' : World) (e e' : Error) :
  seedSlides_try H w = (Thrown e, w') ->
  close_fault H (trace w' ++ [seeding_error e]) = Some e' ->
  fst (seedSlides H w) = Thrown e'.
Proof.
  intros Ht Hfault. rewrite (seedSlides_caught H w Ht).
  unfold mongoose_connection_close. cbn [emit trace].
  fold (seeding_error e). now rewrite Hfault.
Qed.

(* ------------------------------------------------------------------ *)
(** * The Query Service                                                *)
(* ------------------------------------------------------------------ *)

(** C8.  Both routes are read-only: whatever the request and whatever the
    answer, the persisted collection and the connection are after the request
    what they were before it.  The answers to a request are 200 and 500 for
    [GET /], and 200, 404 and 500 for [GET /:id]. *)
Theorem routes_read_only (a : Api) (id : string) :
  store_after list_route a = api_collection a /\
  store_after (get_route id) a = api_collection a /\
  api_connection (snd (list_route a)) = api_connection a /\
  api_connection (snd (get_route id a)) = api_connection a /\
  (forall r slides,
     (statusCode (response_of list_route (request r slides)) = 200 \/
      statusCode (response_of list_route (request r slides)) = 500) /\
     (statusCode (response_of (get_route id) (request r slides)) = 200 \/
      statusCode (response_of (get_route id) (request r slides)) = 404 \/
      statusCode (response_of (get_route id) (request r slides)) = 500)).
Proof.
  unfold store_after, response_of, request, list_route, get_route, try_catch, bind,
    Slide_find, Slide_findById, res_status, res_json.
  repeat split.
  - destruct (api_connection a); reflexivity.
  - destruct (Oid.cast id) as [i|]; destruct (api_connection a);
      try destruct (find _ (api_collection a)); reflexivity.
  - destruct (api_connection a) eqn:Hc; cbn; congruence.
  - destruct (Oid.cast id) as [i|]; destruct (api_connection a) eqn:Hc;
      try destruct (find _ (api_collection a)); cbn; congruence.
  - destruct r; cbn; tauto.
  - destruct (Oid.cast id) as [i|]; destruct r; cbn;
      try destruct (find _ slides); cbn; tauto.
Qed.

(** C4.  On a store that keeps identifiers unique, every document that a
    successful [GET /] has returned is what [GET /:id] then answers, with
    status 200, for the hexadecimal form of its identifier, the store being
    as the list request has left it. *)
Theorem get_after_list (a : Api) (docs : list Slide) (d : Slide) :
  unique_ids (api_collection a) ->
  res (snd (list_route a)) = mkResponse 200 (Some (BodySlides docs)) ->
  In d docs ->
  response_of (get_route (Oid.toHexString (_id d)))
    (request (api_connection (snd (list_route a))) (api_collection (snd (list_route a))))
  = mkResponse 200 (Some (BodySlide d)).
Proof.
  intros Hu Hlist Hin.
  assert (Hafter : api_connection (snd (list_route a)) = Connected /\
                   api_collection (snd (list_route a)) = api_collection a /\
                   docs = api_collection a).
  { unfold list_route, try_catch, bind, Slide_find, res_status, res_json in *.
    destruct (api_connection a) eqn:Hc; cbn [snd res api_collection api_connection] in *.
    - discriminate.
    - injection Hlist as _ <-. repeat split. exact Hc. }
  destruct Hafter as (-> & -> & ->).
  unfold response_of, request, get_route, try_catch, bind, Slide_findById, res_json.
  rewrite cast_toHexString. cbn [api_connection api_collection].
  rewrite (@find_by_id _ d Hu Hin). reflexivity.
Qed.

Lemma get_after_list_witness :
  unique_ids (api_collection (request Connected deck_slides)) /\
  res (snd (list_route (request Connected deck_slides)))
    = mkResponse 200 (Some (BodySlides deck_slides)) /\
  In intro_slide deck_slides /\
  response_of (get_route (Oid.toHexString (_id intro_slide)))
    (request (api_connection (snd (list_route (request Connected deck_slides))))
       (api_collection (snd (list_route (request Connected deck_slides)))))
  = mkResponse 200 (Some (BodySlide intro_slide)).
Proof.
  assert (Hu : unique_ids (api_collection (request Connected deck_slides))).
  { vm_compute. repeat constructor; cbn; intuition discriminate. }
  assert (Hin : In intro_slide deck_slides) by (vm_compute; tauto).
  split; [exact Hu|]. split; [reflexivity|]. split; [exact Hin|].
  apply (@get_after_list (request Connected deck_slides) deck_slides intro_slide);
    [exact Hu | reflexivity | exact Hin].
Defined.

(** C5.  For an identifier of the store's format, at a server whose store
    answers: when no persisted Slide carries it, [GET /:id] answers 404 with
    the body [{message: "Slide not found"}], which holds no document; when
    one does, it answers 200 with that Slide as the body. *)
Theorem get_valid_identifier (id : string) (i : Oid.t) (slides : list Slide) :
  Oid.cast id = Some i ->
  (~ In i (ids slides) ->
   response_of (get_route id) (request Connected slides)
   = mkResponse 404 (Some (BodyObject [("message", "Slide not found")]))) /\
  (In i (ids slides) ->
   exists d,
     In d slides /\ _id d = i /\
     response_of (get_route id) (request Connected slides)
     = mkResponse 200 (Some (BodySlide d))) /\
  (unique_ids slides ->
   forall d, In d slides -> _id d = i ->
     response_of (get_route id) (request Connected slides)
     = mkResponse 200 (Some (BodySlide d))).
Proof.
  intros Hcast.
  unfold response_of, request, get_route, try_catch, bind, Slide_findById,
    res_status, res_json.
  rewrite Hcast. cbn [api_connection api_collection].
  split; [|split].
  - intros Habsent. now rewrite (@find_absent slides i Habsent).
  - intros Hpresent. destruct (@find_present slides i Hpresent) as (d & Hd & Hid & ->).
    exists d. repeat split; assumption.
  - intros Hu d Hd <-. now rewrite (@find_by_id slides d Hu Hd).
Qed.

Lemma get_valid_identifier_witness :
  Oid.cast "0000000000000000000000ff" = Some (Oid.of_N 255) /\
  (~ In (Oid.of_N 255) (ids deck_slides) ->
   response_of (get_route "0000000000000000000000ff") (request Connected deck_slides)
   = mkResponse 404 (Some (BodyObject [("message", "Slide not found")]))) /\
  (In (Oid.of_N 255) (ids deck_slides) ->
   exists d,
     In d deck_slides /\ _id d = Oid.of_N 255 /\
     response_of (get_route "0000000000000000000000ff") (request Connected deck_slides)
     = mkResponse 200 (Some (BodySlide d))) /\
  (unique_ids deck_slides ->
   forall d, In d deck_slides -> _id d = Oid.of_N 255 ->
     response_of (get_route "0000000000000000000000ff") (request Connected deck_slides)
     = mkResponse 200 (Some (BodySlide d))).
Proof.
  split; [vm_compute; reflexivity|].
  apply (@get_valid_identifier "0000000000000000000000ff" (Oid.of_N 255) deck_slides).
  vm_compute; reflexivity.
Defined.

(** C7.  For an identifier that is not of the store's format, [GET /:id]
    answers 500 with a body [{error: message}], whatever the state of the
    store.  A request that fails because the store does not answer gets a
    response of the same status and shape: no 4xx status sets the malformed
    identifier apart. *)
Theorem get_malformed_identifier (id : string) (a : Api) :
  Oid.cast id = None ->
  (exists msg,
     res (snd (get_route id a)) = mkResponse 500 (Some (BodyObject [("error", msg)]))) /\
  (forall id' slides,
   exists msg',
     response_of (get_route id') (request Disconnected slides)
     = mkResponse 500 (Some (BodyObject [("error", msg')]))).
Proof.
  intros Hcast. split.
  - unfold get_route, try_catch, bind, Slide_findById, res_status, res_json.
    rewrite Hcast. cbn [snd res message]. eexists; reflexivity.
  - intros id' slides.
    unfold response_of, request, get_route, try_catch, bind, Slide_findById,
      res_status, res_json.
    destruct (Oid.cast id'); cbn [snd res message api_connection];
      eexists; reflexivity.
Qed.

Lemma get_malformed_identifier_witness :
  Oid.cast "not-an-id" = None /\
  (exists msg,
     res (snd (get_route "not-an-id" (request Connected deck_slides)))
     = mkResponse 500 (Some (BodyObject [("error", msg)]))) /\
  (forall id' slides,
   exists msg',
     response_of (get_route id') (request Disconnected slides)
     = mkResponse 500 (Some (BodyObject [("error", msg')]))).
Proof.
  split; [reflexivity|].
  apply (@get_malformed_identifier "not-an-id" (request Connected deck_slides)).
  reflexivity.
Defined.

(* ------------------------------------------------------------------ *)
(** * The programs on concrete hosts                                   *)
(* ------------------------------------------------------------------ *)

Example endsWith_lower_case : endsWith "intro.json" ".json" = true.
Proof. reflexivity. Qed.

Example endsWith_upper_case : endsWith "DRAFT.JSON" ".json" = false.
Proof. reflexivity. Qed.

Example endsWith_longer_suffix : endsWith "json" ".json" = false.
Proof. reflexivity. Qed.

(** A run over [deck] reads the two [.json] files and persists their
    documents. *)
Example deck_files_read :
  files_read deck boot = ["/srv/app/slides/intro.json"; "/srv/app/slides/outro.json"].
Proof. vm_compute. reflexivity. Qed.

Example deck_collection :
  map fields (collection (after deck boot)) =
  [JObject [("title", JString "Intro")]; JObject [("title", JString "Thanks")]].
Proof. vm_compute. reflexivity. Qed.

(** A run over [broken_deck] persists [a.json], stops at [b.json] and never
    reads [c.json]. *)
Example broken_deck_collection :
  map fields (collection (after broken_deck boot)) = [JObject [("title", JString "A")]].
Proof. vm_compute. reflexivity. Qed.

Example broken_deck_files_read :
  files_read broken_deck boot = ["/srv/app/slides/a.json"; "/srv/app/slides/b.json"].
Proof. vm_compute. reflexivity. Qed.

(** Over [flaky_deck] the closing that ends the [try] block fails after both
    documents were persisted; the handler reports it and closes. *)
Example flaky_deck_run :
  fst (seedSlides_try flaky_deck boot) =
    Thrown (mkError "MongoNetworkError" "connection closed") /\
  fst (seedSlides flaky_deck boot) = Returned tt /\
  length (collection (after flaky_deck boot)) = 2 /\
  connection (after flaky_deck boot) = Disconnected.
Proof. vm_compute. repeat split. Qed.

Example get_present :
  response_of (get_route "000000000000000000000001") (request Connected deck_slides)
  = mkResponse 200 (Some (BodySlide intro_slide)).
Proof. vm_compute. reflexivity. Qed.

(** The cast reads both cases of a hexadecimal digit. *)
Example get_absent :
  response_of (get_route "0000000000000000000000FF") (request Connected deck_slides)
  = mkResponse 404 (Some (BodyObject [("message", "Slide not found")])).
Proof. vm_compute. reflexivity. Qed.

Example get_malformed :
  statusCode (response_of (get_route "1") (request Connected deck_slides)) = 500.
Proof. vm_compute. reflexivity. Qed.

Example list_empty_collection :
  listed [] = mkResponse 200 (Some (BodySlides [])).
Proof. reflexivity. Qed.

Example list_store_down :
  response_of list_route (request Disconnected deck_slides)
  = mkResponse 500
      (Some (BodyObject [("error", "Operation `slides.find()` buffering timed out")])).
Proof. reflexivity. Qed.

(* ------------------------------------------------------------------ *)
(** * More on the runs of the Seeder                                   *)
(* ------------------------------------------------------------------ *)

Lemma console_app (tr1 tr2 : list Event) :
  console (tr1 ++ tr2) = console tr1 ++ console tr2.
Proof. apply filter_app. Qed.

Lemma skipn_length_app_eq {A : Type} (l1 l l2 : list A) :
  l = l1 ++ l2 -> skipn (length l1) l = l2.
Proof. intros ->. apply skipn_length_app. Qed.

Lemma json_files_some (entries : list string) :
  json_files entries <> [] -> Nat.eqb (length (json_files entries)) 0 = false.
Proof. destruct (json_files entries); [congruence | reflexivity]. Qed.

Section TraceFacts.

Variable H : Host.

(** The calls of a loop that returns: those of each file in turn, and one
    identifier taken per file. *)
Lemma loop_trace (files : list string) :
  forall w w',
    for_of files (seed_file H) w = (Returned tt, w') ->
    trace w' = trace w ++ flat_map (file_calls H) files /\
    oids_used w' = oids_used w + length files.
Proof.
  induction files as [|f files IH]; intros w w' Hrun.
  - cbn in Hrun. injection Hrun as <-. cbn. now rewrite app_nil_r, Nat.add_0_r.
  - cbn [for_of] in Hrun. unfold bind at 1 in Hrun.
    destruct (seed_file H f w) as [[[]|e] w1] eqn:Hf; [|discriminate].
    apply seed_file_returned in Hf as (data & Hp & _ & _ & _ & ->).
    apply IH in Hrun as (Htr & Hn). cbn [trace oids_used] in Htr, Hn.
    cbn [flat_map length]. unfold file_calls at 1. rewrite Hp.
    unfold inserted_line. split; [|lia].
    now rewrite Htr, <- app_assoc.
Qed.

(** A turn that throws has made no call to the console. *)
Lemma seed_file_thrown_calls (file : string) (e : Error) (w w' : World) :
  seed_file H file w = (Thrown e, w') ->
  exists attempt, trace w' = trace w ++ attempt /\ console attempt = [].
Proof.
  rewrite seed_file_run. cbn zeta.
  destruct (readFile H _) as [text|].
  - destruct (JSON_parse H text) as [data|].
    + unfold Slide_create.
      cbn [emit take_oid persist connection collection oids_used trace _id].
      destruct (Slide_schema H data); cbn [negb].
      * destruct (connection w).
        -- intros E; injection E as _ <-. cbn [trace take_oid emit].
           eexists. rewrite <- app_assoc. split; reflexivity.
        -- destruct (has_id _ (collection w)); [|discriminate].
           intros E; injection E as _ <-. cbn [trace take_oid emit].
           eexists. rewrite <- app_assoc. split; reflexivity.
      * intros E; injection E as _ <-. cbn [trace take_oid emit].
        eexists. rewrite <- app_assoc. split; reflexivity.
    + intros E; injection E as _ <-. cbn [trace emit].
      eexists. split; reflexivity.
  - intros E; injection E as _ <-. cbn [trace emit].
    eexists. split; reflexivity.
Qed.

(** The calls up to the loop are the opening calls. *)
Lemma at_loop_trace (u : string) (files : list string) (w : World) :
  trace (at_loop H u files w) = trace w ++ opening_calls H u (length files).
Proof.
  unfold at_loop, opening_calls, emit, set_connection. cbn [trace].
  now rewrite <- !app_assoc.
Qed.

(** The three ways the [try] block can go: no connection; no listing; the
    listing, then the empty case or the loop. *)
Lemma try_cases (w : World) :
  ((forall u, MONGO_URI H = Some u -> reachable H u = false) /\
   exists e, seedSlides_try H w = (Thrown e, emit (EvConnect (MONGO_URI H)) w)) \/
  (exists u e,
     MONGO_URI H = Some u /\ reachable H u = true /\
     readdir H (slidesDir H) = None /\
     seedSlides_try H w =
     (Thrown e,
      emit (EvReaddir (slidesDir H))
        (emit (EvLog "✅ MongoDB Connected")
           (set_connection Connected (emit (EvConnect (Some u)) w))))) \/
  (exists u entries,
     MONGO_URI H = Some u /\ reachable H u = true /\
     readdir H (slidesDir H) = Some entries).
Proof.
  destruct (MONGO_URI H) as [u|] eqn:Hu.
  2:{ left. assert (Hno : forall u, MONGO_URI H = Some u -> reachable H u = false)
        by (rewrite Hu; discriminate).
      split; [rewrite <- Hu; exact Hno|].
      destruct (try_unconnected H w Hno) as (e & He). exists e. now rewrite <- Hu. }
  destruct (reachable H u) eqn:Hr.
  2:{ left. assert (Hno : forall u, MONGO_URI H = Some u -> reachable H u = false).
      { rewrite Hu. intros u' E. injection E as <-. exact Hr. }
      split; [rewrite <- Hu; exact Hno|].
      destruct (try_unconnected H w Hno) as (e & He). exists e. now rewrite <- Hu. }
  destruct (readdir H (slidesDir H)) as [entries|] eqn:Hd.
  - right. right. now exists u, entries.
  - right. left. destruct (try_unlisted H w Hu Hr Hd) as (e & He).
    now exists u, e.
Qed.

End TraceFacts.

(** X1.  A run that completes over at least one [.json] file makes these
    calls and no other, in this order: the connection, the line that says so,
    the listing, the line with the number of files found; then for each file
    in listing order its read, the insertion of its parsed content and its
    line, each file being finished before the next is read; then the line of
    success and the closing.  The connection is released when it ends. *)
Theorem seed_complete_trace (H : Host) (u : string) (entries : list string) (w : World) :
  MONGO_URI H = Some u ->
  readdir H (slidesDir H) = Some entries ->
  json_files entries <> [] ->
  completes H w ->
  added H w =
    opening_calls H u (length (json_files entries)) ++
    flat_map (file_calls H) (json_files entries) ++
    [EvLog "🎉 All slides inserted successfully!"; EvClose] /\
  connection (after H w) = Disconnected.
Proof.
  intros Hu Hd Hsome Hc.
  destruct (completes_listed Hc) as (u' & entries' & Hu' & Hr & _).
  assert (u' = u) as -> by congruence.
  unfold added, after. rewrite (seedSlides_completes Hc).
  unfold completes in Hc. rewrite (try_listed H w Hu Hr Hd) in Hc |- *. cbn zeta in *.
  rewrite (@json_files_some entries Hsome) in Hc |- *.
  destruct (for_of _ _ _) as [[[]|e] w1] eqn:Hloop; [|discriminate].
  apply loop_trace in Hloop as (Htr & _). rewrite at_loop_trace in Htr.
  unfold mongoose_connection_close in Hc |- *.
  destruct (close_fault H _); [discriminate|]. cbn [snd]. split; [|reflexivity].
  apply skipn_length_app_eq. world_simpl. rewrite Htr, <- !app_assoc. reflexivity.
Qed.

Lemma seed_complete_trace_witness :
  MONGO_URI deck = Some "mongodb://localhost:27017/deck" /\
  readdir deck (slidesDir deck) = Some ["intro.json"; "notes.txt"; "outro.json"; "DRAFT.JSON"] /\
  json_files ["intro.json"; "notes.txt"; "outro.json"; "DRAFT.JSON"] <> [] /\
  completes deck boot /\
  added deck boot =
    opening_calls deck "mongodb://localhost:27017/deck"
      (length (json_files ["intro.json"; "notes.txt"; "outro.json"; "DRAFT.JSON"])) ++
    flat_map (file_calls deck) (json_files ["intro.json"; "notes.txt"; "outro.json"; "DRAFT.JSON"]) ++
    [EvLog "🎉 All slides inserted successfully!"; EvClose] /\
  connection (after deck boot) = Disconnected.
Proof.
  split; [reflexivity|]. split; [reflexivity|].
  split; [vm_compute; discriminate|]. split; [vm_compute; reflexivity|].
  apply (@seed_complete_trace deck "mongodb://localhost:27017/deck"
           ["intro.json"; "notes.txt"; "outro.json"; "DRAFT.JSON"] boot);
    [reflexivity | reflexivity | vm_compute; discriminate | vm_compute; reflexivity].
Defined.

Section AppendFacts.

Variable H : Host.

(** What the [try] block leaves in the collection: what was there, then the
    documents of a first part of the [.json] files. *)
Lemma try_appends (w : World) :
  exists files docs,
    collection (snd (seedSlides_try H w)) = collection w ++ docs /\
    Forall2 (document_of H) files docs /\
    (files = [] \/
     exists entries later,
       readdir H (slidesDir H) = Some entries /\
       json_files entries = files ++ later).
Proof.
  destruct (try_cases H w)
    as [(_ & e & ->) | [(u & e & _ & _ & _ & ->) | (u & entries & Hu & Hr & Hd)]].
  - exists [], []. world_simpl. rewrite app_nil_r.
    split; [reflexivity|]. split; [constructor | now left].
  - exists [], []. world_simpl. rewrite app_nil_r.
    split; [reflexivity|]. split; [constructor | now left].
  - rewrite (try_listed H w Hu Hr Hd). cbn zeta.
    destruct (Nat.eqb (length (json_files entries)) 0).
    + exists [], []. world_simpl. rewrite app_nil_r.
      split; [reflexivity|]. split; [constructor | now left].
    + destruct (for_of _ _ _) as [[[]|e] w1] eqn:Hloop.
      * apply loop_returned in Hloop as (docs & HF & Hcol & _).
        world_simpl in Hcol.
        exists (json_files entries), docs.
        destruct (close_run H (emit (EvLog "🎉 All slides inserted successfully!") w1))
          as (-> & _).
        world_simpl. split; [exact Hcol|]. split; [exact HF|].
        right. exists entries, []. split; [exact Hd | now rewrite app_nil_r].
      * apply loop_thrown in Hloop as (before & file & later & w2 & Hsplit & Hb & Hf).
        apply loop_returned in Hb as (docs & HF & Hcol & _).
        apply seed_file_thrown in Hf as (Hsame & _).
        world_simpl in Hcol.
        exists before, docs. cbn [snd]. split; [congruence|]. split; [exact HF|].
        right. exists entries, (file :: later). split; assumption.
Qed.

(** The [catch] block leaves the collection as it finds it. *)
Lemma catch_collection (e : Error) (w : World) :
  collection (snd (seedSlides_catch H e w)) = collection w.
Proof.
  unfold seedSlides_catch, bind, console_error.
  now destruct (close_run H (emit (EvError "❌ Error while seeding slides:" e) w))
    as (-> & _).
Qed.

Lemma after_collection (w : World) :
  collection (after H w) = collection (snd (seedSlides_try H w)).
Proof.
  unfold after, seedSlides, try_catch.
  destruct (seedSlides_try H w) as [[[]|e] w1]; [reflexivity|].
  cbn [snd]. apply catch_collection.
Qed.

(** A loop that returns has written the line of each file, in order. *)
Lemma loop_console (files : list string) (docs : list Slide) :
  Forall2 (document_of H) files docs ->
  console (flat_map (file_calls H) files) = map inserted_line files.
Proof.
  induction 1 as [|f d files docs Hd _ IH]; [reflexivity|].
  cbn [flat_map map]. rewrite console_app, IH. unfold file_calls.
  unfold document_of in Hd. rewrite Hd. reflexivity.
Qed.

End AppendFacts.

(** X2.  No run of the Seeder, complete or not, removes or changes a
    persisted document: the collection after the run is the collection before
    it followed by the documents of a first part of the [.json] files of the
    directory, in listing order. *)
Theorem seed_only_appends (H : Host) (w : World) :
  exists files docs,
    collection (after H w) = collection w ++ docs /\
    Forall2 (document_of H) files docs /\
    (files = [] \/
     exists entries later,
       readdir H (slidesDir H) = Some entries /\
       json_files entries = files ++ later).
Proof.
  rewrite after_collection. apply try_appends.
Qed.

(** X3.  When the slides directory cannot be listed, the run connects, fails
    at the listing and goes to the handler: its calls are the connection, the
    line that says so, the listing, the error line and the closing.  No file
    is read and the collection is left as it was. *)
Theorem seed_unlisted_directory (H : Host) (u : string) (w : World) :
  MONGO_URI H = Some u -> reachable H u = true ->
  readdir H (slidesDir H) = None ->
  (exists e,
     added H w =
     [EvConnect (Some u); EvLog "✅ MongoDB Connected"; EvReaddir (slidesDir H);
      seeding_error e; EvClose]) /\
  files_read H w = [] /\
  collection (after H w) = collection w.
Proof.
  intros Hu Hr Hd.
  destruct (try_unlisted H w Hu Hr Hd) as (e & Ht).
  pose proof (seedSlides_caught H w Ht) as Hrun. fold (seeding_error e) in Hrun.
  assert (Htrace : trace (after H w) =
    trace w ++ [EvConnect (Some u); EvLog "✅ MongoDB Connected";
                EvReaddir (slidesDir H); seeding_error e; EvClose]).
  { unfold after. rewrite Hrun.
    destruct (close_run H (emit (seeding_error e)
      (emit (EvReaddir (slidesDir H))
         (emit (EvLog "✅ MongoDB Connected")
            (set_connection Connected (emit (EvConnect (Some u)) w))))))
      as (_ & -> & _).
    world_simpl. now rewrite <- !app_assoc. }
  split; [|split].
  - exists e. unfold added. rewrite Htrace. apply skipn_length_app.
  - unfold files_read. rewrite Htrace, read_paths_app. cbn.
    apply (skipn_length_app (read_paths (trace w)) []).
  - rewrite after_collection, Ht. reflexivity.
Qed.

Lemma seed_unlisted_directory_witness :
  MONGO_URI no_dir_deck = Some "mongodb://localhost:27017/deck" /\
  reachable no_dir_deck "mongodb://localhost:27017/deck" = true /\
  readdir no_dir_deck (slidesDir no_dir_deck) = None /\
  (exists e,
     added no_dir_deck boot =
     [EvConnect (Some "mongodb://localhost:27017/deck"); EvLog "✅ MongoDB Connected";
      EvReaddir (slidesDir no_dir_deck); seeding_error e; EvClose]) /\
  files_read no_dir_deck boot = [] /\
  collection (after no_dir_deck boot) = collection boot.
Proof.
  split; [reflexivity|]. split; [reflexivity|]. split; [reflexivity|].
  apply (@seed_unlisted_directory no_dir_deck "mongodb://localhost:27017/deck" boot);
    reflexivity.
Defined.

Section SuccessFacts.

Variable H : Host.

(** A loop that returns has found every file readable, valid and accepted. *)
Lemma loop_accepts (files : list string) :
  forall w w',
    for_of files (seed_file H) w = (Returned tt, w') ->
    forall f, In f files ->
      exists data, parsed H f = Some data /\ Slide_schema H data = true.
Proof.
  induction files as [|f files IH]; intros w w' Hrun g Hg; [destruct Hg|].
  cbn [for_of] in Hrun. unfold bind at 1 in Hrun.
  destruct (seed_file H f w) as [[[]|e] w1] eqn:Hf; [|discriminate].
  destruct Hg as [<-|Hg].
  - apply seed_file_returned in Hf as (data & Hp & Hs & _). now exists data.
  - exact (IH _ _ Hrun g Hg).
Qed.

End SuccessFacts.

(** X5.  A run completes only if every [.json] file of the directory can be
    read, parses and is accepted by the schema: one file that fails anywhere
    in the listing keeps the whole run from completing. *)
Theorem seed_completes_only_if (H : Host) (entries : list string) (w : World) (f : string) :
  readdir H (slidesDir H) = Some entries ->
  completes H w ->
  In f (json_files entries) ->
  exists data, parsed H f = Some data /\ Slide_schema H data = true.
Proof.
  intros Hd Hc Hf.
  destruct (completes_listed Hc) as (u & entries' & Hu & Hr & Hd').
  assert (entries' = entries) as -> by congruence.
  unfold completes in Hc. rewrite (try_listed H w Hu Hr Hd) in Hc. cbn zeta in Hc.
  destruct (Nat.eqb (length (json_files entries)) 0) eqn:Hz.
  - apply json_files_none in Hz. rewrite Hz in Hf. destruct Hf.
  - destruct (for_of _ _ _) as [[[]|e] w1] eqn:Hloop; [|discriminate].
    exact (loop_accepts H _ _ Hloop f Hf).
Qed.

Lemma seed_completes_only_if_witness :
  readdir deck (slidesDir deck) = Some ["intro.json"; "notes.txt"; "outro.json"; "DRAFT.JSON"] /\
  completes deck boot /\
  In "outro.json" (json_files ["intro.json"; "notes.txt"; "outro.json"; "DRAFT.JSON"]) /\
  exists data, parsed deck "outro.json" = Some data /\ Slide_schema deck data = true.
Proof.
  split; [reflexivity|]. split; [vm_compute; reflexivity|].
  split; [vm_compute; tauto|].
  apply (@seed_completes_only_if deck
           ["intro.json"; "notes.txt"; "outro.json"; "DRAFT.JSON"] boot "outro.json");
    [reflexivity | vm_compute; reflexivity | vm_compute; tauto].
Defined.

(** X6.  When closing the connection never fails, the empty directory is the
    only way for a run to end with the connection open: the connection is
    open after the run if and only if the store was connected, the directory
    was listed and it held no [.json] entry.  Every other run, whether it
    completes or fails, ends with the connection closed. *)
Theorem seed_connection_left_open (H : Host) (w : World) :
  (forall tr, close_fault H tr = None) ->
  (connection (after H w) = Connected <->
   exists u entries,
     MONGO_URI H = Some u /\ reachable H u = true /\
     readdir H (slidesDir H) = Some entries /\ json_files entries = []).
Proof.
  intros Hclose.
  assert (Hcatch : forall e w', seedSlides_try H w = (Thrown e, w') ->
                                connection (after H w) = Disconnected).
  { intros e w' Ht. unfold after. rewrite (seedSlides_caught H w Ht).
    unfold mongoose_connection_close. now rewrite Hclose. }
  destruct (try_cases H w)
    as [(Hno & e & Ht) | [(u & e & Hu & Hr & Hd & Ht) | (u & entries & Hu & Hr & Hd)]].
  - rewrite (Hcatch _ _ Ht). split; [discriminate|].
    intros (u & entries & Hu & Hr & _). rewrite (Hno u Hu) in Hr. discriminate.
  - rewrite (Hcatch _ _ Ht). split; [discriminate|].
    intros (u' & entries & _ & _ & Hd' & _). congruence.
  - pose proof (try_listed H w Hu Hr Hd) as Ht. cbn zeta in Ht.
    destruct (Nat.eqb (length (json_files entries)) 0) eqn:Hz.
    + unfold after, seedSlides, try_catch. rewrite Ht. world_simpl.
      split; [|reflexivity]. intros _. exists u, entries.
      repeat split; try assumption. now apply json_files_none.
    + assert (Hdis : connection (after H w) = Disconnected).
      { destruct (for_of _ _ _) as [[[]|e] w1] eqn:Hloop.
        - unfold mongoose_connection_close in Ht. rewrite Hclose in Ht.
          unfold after, seedSlides, try_catch. rewrite Ht. reflexivity.
        - exact (Hcatch _ _ Ht). }
      rewrite Hdis. split; [discriminate|].
      intros (u' & entries' & _ & _ & Hd' & Hnone).
      assert (entries' = entries) as -> by congruence.
      rewrite Hnone in Hz. discriminate.
Qed.

Lemma seed_connection_left_open_witness :
  (forall tr, close_fault empty_deck tr = None) /\
  (connection (after empty_deck boot) = Connected <->
   exists u entries,
     MONGO_URI empty_deck = Some u /\ reachable empty_deck u = true /\
     readdir empty_deck (slidesDir empty_deck) = Some entries /\ json_files entries = []).
Proof.
  split; [reflexivity|].
  apply (@seed_connection_left_open empty_deck boot). reflexivity.
Defined.

(** X7.  When the turn of the Nth [.json] file throws, the console shows the
    two informational lines, then the line of each of the N-1 files before it,
    in order, then the error line, and nothing else: there is no line for the
    Nth file or a later one, and no line of success. *)
Theorem seed_abort_console (H : Host) (u : string) (entries : list string)
    (before later : list string) (file : string) (e : Error) (w w1 w2 : World) :
  MONGO_URI H = Some u -> reachable H u = true ->
  readdir H (slidesDir H) = Some entries ->
  json_files entries = before ++ file :: later ->
  for_of before (seed_file H) (at_loop H u (json_files entries) w) = (Returned tt, w1) ->
  seed_file H file w1 = (Thrown e, w2) ->
  console (added H w) =
    [EvLog "✅ MongoDB Connected";
     EvLog ("📄 Found " ++ decimal (length (json_files entries)) ++ " slide JSON files")] ++
    map inserted_line before ++ [seeding_error e].
Proof.
  intros Hu Hr Hd Hsplit Hb Hf.
  assert (Htry : seedSlides_try H w = (Thrown e, w2)).
  { rewrite (try_listed H w Hu Hr Hd). cbn zeta.
    rewrite Hsplit in Hb |- *.
    replace (Nat.eqb (length (before ++ file :: later)) 0) with false
      by (symmetry; apply Nat.eqb_neq; rewrite length_app; cbn [length]; lia).
    now rewrite (@loop_stops H before later file e _ w1 w2 Hb Hf). }
  pose proof (seedSlides_caught H w Htry) as Hrun. fold (seeding_error e) in Hrun.
  destruct (close_run H (emit (seeding_error e) w2)) as (_ & Htr & _).
  pose proof Hb as Hb'. apply loop_returned in Hb' as (docs & HF & _).
  apply loop_trace in Hb as (Hcalls & _). rewrite at_loop_trace in Hcalls.
  apply seed_file_thrown_calls in Hf as (attempt & Hattempt & Hquiet).
  unfold added, after. rewrite Hrun, Htr. world_simpl.
  rewrite Hattempt, Hcalls, <- !app_assoc, skipn_length_app.
  rewrite !console_app, (loop_console HF), Hquiet. reflexivity.
Qed.

Lemma seed_abort_console_witness :
  console (added broken_deck boot) =
    [EvLog "✅ MongoDB Connected";
     EvLog ("📄 Found " ++ decimal (length (json_files ["a.json"; "b.json"; "c.json"])) ++
            " slide JSON files")] ++
    map inserted_line ["a.json"] ++ [seeding_error syntax_error].
Proof.
  apply (@seed_abort_console broken_deck "mongodb://localhost:27017/deck"
           ["a.json"; "b.json"; "c.json"] ["a.json"] ["c.json"] "b.json"
           syntax_error boot broken_after_a broken_at_b);
    vm_compute; reflexivity.
Defined.

Lemma Forall2_in_left {A B : Type} (R : A -> B -> Prop) (l1 : list A) (l2 : list B) :
  Forall2 R l1 l2 -> forall a, In a l1 -> exists b, In b l2 /\ R a b.
Proof.
  induction 1 as [|x y l1 l2 Hxy _ IH]; intros a Ha; [destruct Ha|].
  destruct Ha as [<-|Ha].
  - exists y. split; [now left | assumption].
  - destruct (IH a Ha) as (b & Hb & Hab). exists b. split; [now right | assumption].
Qed.

(** X8.  After a run that completes on a collection whose identifiers are
    unique, every [.json] file of the directory has a document that
    [GET /:id] serves: asked for that document's identifier in hexadecimal, a
    connected server answers 200 with the document, whose fields are the
    parsed content of the file. *)
Theorem seed_then_get (H : Host) (entries : list string) (w : World) (f : string) :
  readdir H (slidesDir H) = Some entries ->
  completes H w ->
  unique_ids (collection w) ->
  In f (json_files entries) ->
  exists d,
    In d (collection (after H w)) /\
    document_of H f d /\
    response_of (get_route (Oid.toHexString (_id d)))
      (request Connected (collection (after H w)))
    = mkResponse 200 (Some (BodySlide d)).
Proof.
  intros Hd Hc Hu Hf.
  destruct (completes_appends Hc)
    as (entries' & docs & Hd' & HF & Hcol & _ & Huniq & _).
  assert (entries' = entries) as -> by congruence.
  destruct (Forall2_in_left HF f Hf) as (d & Hin & Hdoc).
  assert (Hin' : In d (collection (after H w))).
  { rewrite Hcol. apply in_or_app. now right. }
  exists d. split; [exact Hin'|]. split; [exact Hdoc|].
  unfold response_of, request, get_route, try_catch, bind, Slide_findById, res_json.
  rewrite cast_toHexString. cbn [api_connection api_collection].
  rewrite (@find_by_id _ d (Huniq Hu) Hin'). reflexivity.
Qed.

Lemma seed_then_get_witness :
  readdir deck (slidesDir deck) = Some ["intro.json"; "notes.txt"; "outro.json"; "DRAFT.JSON"] /\
  completes deck boot /\
  unique_ids (collection boot) /\
  In "outro.json" (json_files ["intro.json"; "notes.txt"; "outro.json"; "DRAFT.JSON"]) /\
  exists d,
    In d (collection (after deck boot)) /\
    document_of deck "outro.json" d /\
    response_of (get_route (Oid.toHexString (_id d)))
      (request Connected (collection (after deck boot)))
    = mkResponse 200 (Some (BodySlide d)).
Proof.
  assert (Hu : unique_ids (collection boot)) by constructor.
  split; [reflexivity|]. split; [vm_compute; reflexivity|]. split; [exact Hu|].
  split; [vm_compute; tauto|].
  apply (@seed_then_get deck ["intro.json"; "notes.txt"; "outro.json"; "DRAFT.JSON"]
           boot "outro.json");
    [reflexivity | vm_compute; reflexivity | exact Hu | vm_compute; tauto].
Defined.

Lemma for_of_ext {S A : Type} (xs : list A) (body1 body2 : A -> M S unit) :
  (forall x, In x xs -> forall s, body1 x s = body2 x s) ->
  forall s, for_of xs body1 s = for_of xs body2 s.
Proof.
  induction xs as [|x xs IH]; intros Hext s; [reflexivity|].
  cbn [for_of]. unfold bind. rewrite (Hext x (or_introl eq_refl) s).
  destruct (body2 x s) as [[[]|e] s1]; [|reflexivity].
  apply IH. intros y Hy. apply Hext. now right.
Qed.

(** X9.  A run depends on the slides directory only through its [.json]
    entries and the content of those files.  On another file system that has
    the same [.json] entries in the same order and the same text in each of
    them, whatever else the directory holds and whatever the other files
    contain, the run makes the same calls, leaves the same collection and ends
    the same way. *)
Theorem seed_ignores_other_files (H : Host) (rd : string -> option (list string))
    (rf : string -> option string) (entries entries' : list string) (w : World) :
  readdir H (slidesDir H) = Some entries ->
  rd (slidesDir H) = Some entries' ->
  json_files entries' = json_files entries ->
  (forall f, In f (json_files entries) ->
     rf (path_join (slidesDir H) f) = readFile H (path_join (slidesDir H) f)) ->
  seedSlides (with_files H rd rf) w = seedSlides H w.
Proof.
  intros Hd Hd' Hsame Hfiles.
  assert (Htry : seedSlides_try (with_files H rd rf) w = seedSlides_try H w).
  { destruct (MONGO_URI H) as [u|] eqn:Hu.
    2:{ unfold seedSlides_try, bind, mongoose_connect.
        cbn [MONGO_URI with_files]. rewrite Hu. reflexivity. }
    destruct (reachable H u) eqn:Hr.
    2:{ unfold seedSlides_try, bind, mongoose_connect.
        cbn [MONGO_URI reachable with_files]. rewrite Hu, Hr. reflexivity. }
    rewrite (try_listed H w Hu Hr Hd).
    rewrite (@try_listed (with_files H rd rf) u entries' w Hu Hr Hd').
    cbn zeta. rewrite Hsame.
    change (at_loop (with_files H rd rf) u (json_files entries) w)
      with (at_loop H u (json_files entries) w).
    rewrite (for_of_ext (json_files entries)
               (seed_file (with_files H rd rf)) (seed_file H)).
    - reflexivity.
    - intros f Hf s. rewrite !seed_file_run. cbn zeta.
      change (slidesDir (with_files H rd rf)) with (slidesDir H).
      change (readFile (with_files H rd rf)) with rf.
      rewrite (Hfiles f Hf). reflexivity. }
  unfold seedSlides, try_catch. rewrite Htry. reflexivity.
Qed.

Lemma seed_ignores_other_files_witness :
  readdir deck (slidesDir deck) = Some ["intro.json"; "notes.txt"; "outro.json"; "DRAFT.JSON"] /\
  deck_other_entries (slidesDir deck)
    = Some ["intro.json"; "outro.json.bak"; "outro.json"; "DRAFT.JSON"] /\
  json_files ["intro.json"; "outro.json.bak"; "outro.json"; "DRAFT.JSON"]
    = json_files ["intro.json"; "notes.txt"; "outro.json"; "DRAFT.JSON"] /\
  seedSlides (with_files deck deck_other_entries deck_other_files) boot = seedSlides deck boot.
Proof.
  split; [reflexivity|]. split; [reflexivity|]. split; [reflexivity|].
  apply (@seed_ignores_other_files deck deck_other_entries deck_other_files
           ["intro.json"; "notes.txt"; "outro.json"; "DRAFT.JSON"]
           ["intro.json"; "outro.json.bak"; "outro.json"; "DRAFT.JSON"] boot).
  - reflexivity.
  - reflexivity.
  - reflexivity.
  - intros f Hf. vm_compute in Hf. destruct Hf as [<-|[<-|[]]]; reflexivity.
Defined.

(* ------------------------------------------------------------------ *)
(** * More on the routes                                               *)
(* ------------------------------------------------------------------ *)

(** X10.  The answers of [GET /:id], read backwards.  The status is 200
    exactly when the path parameter is a well-formed identifier, the store
    answers and a persisted Slide carries that identifier; 404 exactly when
    it is well-formed, the store answers and no Slide carries it; 500 exactly
    when it is malformed or the store does not answer.  A Slide is sent only
    with status 200, and it is then a persisted Slide whose identifier is the
    one asked for. *)
Theorem get_route_answers (id : string) (r : ReadyState) (slides : list Slide) :
  (statusCode (response_of (get_route id) (request r slides)) = 200 <->
   exists i, Oid.cast id = Some i /\ r = Connected /\ In i (ids slides)) /\
  (statusCode (response_of (get_route id) (request r slides)) = 404 <->
   exists i, Oid.cast id = Some i /\ r = Connected /\ ~ In i (ids slides)) /\
  (statusCode (response_of (get_route id) (request r slides)) = 500 <->
   Oid.cast id = None \/ r = Disconnected) /\
  (forall d,
     sent (response_of (get_route id) (request r slides)) = Some (BodySlide d) ->
     In d slides /\ Oid.cast id = Some (_id d) /\
     statusCode (response_of (get_route id) (request r slides)) = 200).
Proof.
  unfold response_of, request, get_route, try_catch, bind, Slide_findById,
    res_status, res_json.
  destruct (Oid.cast id) as [i|] eqn:Hcast.
  - destruct r; cbn [api_connection api_collection snd res statusCode sent].
    + split; [|split; [|split]].
      * split; [discriminate|]. intros (j & _ & E & _). discriminate.
      * split; [discriminate|]. intros (j & _ & E & _). discriminate.
      * split; [now right | reflexivity].
      * discriminate.
    + destruct (has_id i slides) eqn:Hid.
      * apply has_id_true in Hid.
        destruct (@find_present slides i Hid) as (d & Hd & Hi & ->).
        cbn [snd res statusCode sent fresh_res].
        split; [|split; [|split]].
        -- split; [|reflexivity]. intros _. now exists i.
        -- split; [discriminate|]. intros (j & E & _ & Hn).
           injection E as <-. contradiction.
        -- split; [discriminate|]. intros [E|E]; discriminate.
        -- intros d' E. injection E as <-. subst i. repeat split. exact Hd.
      * apply has_id_false in Hid. rewrite (@find_absent slides i Hid).
        cbn [snd res statusCode sent fresh_res].
        split; [|split; [|split]].
        -- split; [discriminate|]. intros (j & E & _ & Hin).
           injection E as <-. contradiction.
        -- split; [|reflexivity]. intros _. now exists i.
        -- split; [discriminate|]. intros [E|E]; discriminate.
        -- discriminate.
  - cbn [snd res statusCode sent].
    split; [|split; [|split]].
    + split; [discriminate|]. intros (j & E & _). discriminate.
    + split; [discriminate|]. intros (j & E & _). discriminate.
    + split; [now left | reflexivity].
    + discriminate.
Qed.

(** X11.  The answers of [GET /].  The status is 200 exactly when the store
    answers, and the body is then the whole collection in the store's order,
    so an empty sequence for an empty collection and not an error; otherwise
    the status is 500 and the body [{error: message}] holds no document. *)
Theorem list_route_answers (r : ReadyState) (slides : list Slide) :
  (statusCode (response_of list_route (request r slides)) = 200 <-> r = Connected) /\
  (r = Connected ->
   response_of list_route (request r slides) = mkResponse 200 (Some (BodySlides slides))) /\
  (r = Disconnected ->
   exists msg,
     response_of list_route (request r slides)
     = mkResponse 500 (Some (BodyObject [("error", msg)]))) /\
  (forall docs,
     sent (response_of list_route (request r slides)) = Some (BodySlides docs) ->
     docs = slides /\ statusCode (response_of list_route (request r slides)) = 200).
Proof.
  unfold response_of, request, list_route, try_catch, bind, Slide_find,
    res_status, res_json.
  destruct r; cbn [api_connection api_collection snd res statusCode sent].
  - split; [|split; [|split]].
    + split; discriminate.
    + discriminate.
    + intros _. eexists; reflexivity.
    + discriminate.
  - split; [|split; [|split]].
    + split; reflexivity.
    + reflexivity.
    + discriminate.
    + intros docs E. injection E as <-. split; reflexivity.
Qed.

Lemma list_route_answers_witness :
  Connected = Connected /\
  response_of list_route (request Connected []) = mkResponse 200 (Some (BodySlides [])).
Proof.
  split; [reflexivity|].
  destruct (@list_route_answers Connected []) as (_ & Hlist & _).
  exact (Hlist eq_refl).
Defined.

(** X12.  No request makes a handler throw: whatever the path parameter, the
    state of the store and the state of [res], both handlers return normally,
    having sent a body.  An error of the store or of the cast reaches the
    caller as a response, never as a rejection of the handler. *)
Theorem routes_never_throw (a : Api) (id : string) :
  fst (list_route a) = Returned tt /\
  fst (get_route id a) = Returned tt /\
  sent (res (snd (list_route a))) <> None /\
  sent (res (snd (get_route id a))) <> None.
Proof.
  unfold list_route, get_route, try_catch, bind, Slide_find, Slide_findById,
    res_status, res_json.
  destruct (Oid.cast id) as [i|]; destruct (api_connection a);
    try destruct (find _ (api_collection a));
    cbn [fst snd res sent]; repeat split; discriminate.
Qed.

(* ------------------------------------------------------------------ *)
(** * Identifiers stay unique                                          *)
(* ------------------------------------------------------------------ *)

Lemma seedSlides_keeps_unique_ids_witness :
  unique_ids (collection (after deck boot)) /\
  unique_ids (collection (after deck (after deck boot))).
Proof.
  assert (Hfirst : unique_ids (collection (after deck boot))).
  { apply (@seedSlides_keeps_unique_ids deck boot). constructor. }
  split; [exact Hfirst|].
  apply (@seedSlides_keeps_unique_ids deck (after deck boot)). exact Hfirst.
Defined.
